(** * Variant resolution and availability detection of the eBay stock scraper

    A shallow embedding of [ebay_stock_scraper.py]: the label normalizer,
    the variant descriptor builder [load_variants_from_excel], the static
    detector [detect_availability] with its retry controller
    [process_variants_requests], and the interactive selection engine with
    [process_variants_chromium].

    Python [str] values are modelled as [string]; every function below is
    exact on ASCII text.  Code units above 127 are kept as they are by
    [lower] and count neither as whitespace nor as digits. *)

From Stdlib Require Import Ascii ZArith Bool Lia.
From Stdlib Require String.
From stdpp Require Import base option list gmap strings pretty sorting.

(** ** Python string primitives used by the scraper *)
Module Py.

(** [str.isspace] on one ASCII character: TAB, LF, VT, FF, CR, FS, GS,
    RS, US and the space. *)
Definition isspace (c : ascii) : bool :=
  let n := nat_of_ascii c in
  ((9 <=? n)%nat && (n <=? 13)%nat) || ((28 <=? n)%nat && (n <=? 32)%nat).

Definition isdigit (c : ascii) : bool :=
  let n := nat_of_ascii c in (48 <=? n)%nat && (n <=? 57)%nat.

Definition lower_char (c : ascii) : ascii :=
  let n := nat_of_ascii c in
  if (65 <=? n)%nat && (n <=? 90)%nat then ascii_of_nat (n + 32) else c.

(** [s.lower()] *)
Fixpoint lower (s : string) : string :=
  match s with
  | EmptyString => EmptyString
  | String c s' => String (lower_char c) (lower s')
  end.

Definition is_empty (s : string) : bool :=
  match s with EmptyString => true | _ => false end.

(** Truthiness of a Python string. *)
Definition truthy (s : string) : bool := negb (is_empty s).

Fixpoint lstrip_by (p : ascii -> bool) (s : string) : string :=
  match s with
  | EmptyString => EmptyString
  | String c s' => if p c then lstrip_by p s' else s
  end.

Fixpoint rstrip_by (p : ascii -> bool) (s : string) : string :=
  match s with
  | EmptyString => EmptyString
  | String c s' =>
      let r := rstrip_by p s' in
      if p c && is_empty r then EmptyString else String c r
  end.

(** [s.strip()] *)
Definition strip (s : string) : string := rstrip_by isspace (lstrip_by isspace s).

(** [s.rstrip(":")] *)
Definition rstrip_colon (s : string) : string :=
  rstrip_by (fun c => Ascii.eqb c ":"%char) s.

(** [s.rstrip("/")] *)
Definition rstrip_slash (s : string) : string :=
  rstrip_by (fun c => Ascii.eqb c "/"%char) s.

(** [s.split()]: the maximal runs of non-whitespace characters. *)
Fixpoint split_ws_go (cur : string) (s : string) : list string :=
  match s with
  | EmptyString => if is_empty cur then [] else [cur]
  | String c s' =>
      if isspace c
      then (if is_empty cur then split_ws_go EmptyString s'
            else cur :: split_ws_go EmptyString s')
      else split_ws_go (cur +:+ String c EmptyString) s'
  end.

Definition split_ws (s : string) : list string := split_ws_go EmptyString s.

(** [sep.join(l)] *)
Definition join (sep : string) (l : list string) : string := String.concat sep l.

(** [needle in hay] *)
Fixpoint contains (needle hay : string) : bool :=
  String.prefix needle hay ||
  match hay with
  | EmptyString => false
  | String _ hay' => contains needle hay'
  end.

(** [s.split(sep)[0]] for a non-empty [sep]: the text before the first
    occurrence of [sep], the whole text when there is none. *)
Fixpoint before_first (sep s : string) : string :=
  if String.prefix sep s then EmptyString
  else match s with
       | EmptyString => EmptyString
       | String c s' => String c (before_first sep s')
       end.

Fixpoint drop (n : nat) (s : string) : string :=
  match n, s with
  | O, _ => s
  | S _, EmptyString => EmptyString
  | S k, String _ s' => drop k s'
  end.

(** [s.split(sep, 1)]: one element when [sep] does not occur, else the
    text before and the text after its first occurrence. *)
Fixpoint split_once (sep s : string) : list string :=
  if String.prefix sep s then [EmptyString; drop (String.length sep) s]
  else match s with
       | EmptyString => [EmptyString]
       | String c s' =>
           match split_once sep s' with
           | h :: t => String c h :: t
           | [] => []
           end
       end.

(** [s.replace(old, new)] for a non-empty [old]: occurrences are replaced
    from the left and do not overlap; [skip] counts the characters of
    the occurrence being replaced that are still to be passed over. *)
Fixpoint replace_go (old new : string) (skip : nat) (s : string) : string :=
  match s with
  | EmptyString => EmptyString
  | String c s' =>
      match skip with
      | S k => replace_go old new k s'
      | O =>
          if String.prefix old s
          then new +:+ replace_go old new (String.length old - 1) s'
          else String c (replace_go old new 0 s')
      end
  end.

Definition replace (old new s : string) : string := replace_go old new 0 s.

(** [any(c.isdigit() for c in s)] *)
Fixpoint any_digit (s : string) : bool :=
  match s with
  | EmptyString => false
  | String c s' => isdigit c || any_digit s'
  end.

(** [s.isdigit()]: non-empty and all digits. *)
Fixpoint all_digit (s : string) : bool :=
  match s with
  | EmptyString => true
  | String c s' => isdigit c && all_digit s'
  end.

Definition str_isdigit (s : string) : bool := truthy s && all_digit s.

End Py.

(** ** Label normalizer *)

Definition normalize_label (text : string) : string :=
  Py.join " " (Py.split_ws (Py.lower text)).

(** "Extract base colour name by removing seller-specific suffixes." *)
Definition extract_base_colour (colour_text : string) : string :=
  let text := Py.strip colour_text in
  if Py.contains " - " text
  then Py.lower (Py.strip (Py.before_first " - " text))
  else Py.lower text.

Definition extract_base_size (size_text : string) : string :=
  let text := Py.strip size_text in
  let text := if Py.contains "(" text
              then Py.strip (Py.before_first "(" text) else text in
  let text := Py.strip (Py.replace "selected" "" (Py.replace "Most popular" "" text)) in
  Py.lower text.

(** The three tiers of [option_matches], in the order the function tries
    them. *)
Definition substring_tier (option_text target : string) : bool :=
  Py.contains (normalize_label target) (normalize_label option_text).

Definition colour_tier (option_text target : string) : bool :=
  (Py.contains " - " option_text || Py.contains " - " target) &&
  (let option_base := extract_base_colour option_text in
   let target_base := extract_base_colour target in
   String.eqb option_base target_base
   || Py.contains target_base option_base
   || Py.contains option_base target_base).

(** The guard of the size tier looks at [option_text] only. *)
Definition looks_like_size (option_text : string) : bool :=
  Py.contains "cm" (Py.lower option_text)
  || (Py.contains "x" (Py.lower option_text) && Py.any_digit option_text).

Definition size_tier (option_text target : string) : bool :=
  looks_like_size option_text &&
  (let option_base := extract_base_size option_text in
   let target_base := extract_base_size target in
   let option_base_clean := Py.replace " " "" option_base in
   let target_base_clean := Py.replace " " "" target_base in
   String.eqb option_base target_base
   || Py.contains target_base option_base
   || String.eqb option_base_clean target_base_clean).

Definition option_matches (option_text target : string) : bool :=
  if substring_tier option_text target then true
  else if colour_tier option_text target then true
  else if size_tier option_text target then true
  else false.

(** The variant of [extract_base_colour] that [test_colour_matching.py]
    defines and exercises: it also strips a leading "GelBack" / "Gel Back"
    prefix. *)
Module TestColourMatching.

Definition extract_base_colour (colour_text : string) : string :=
  let text := Py.strip colour_text in
  let low := Py.lower text in
  let by_dash :=
    if String.prefix "gelback-" low || String.prefix "gel back-" low
    then match Py.split_once "-" text with
         | [_; rest] => Some (Py.lower (Py.strip rest))
         | _ => None
         end
    else None in
  match by_dash with
  | Some r => r
  | None =>
      if Py.contains " - " text
      then Py.lower (Py.strip (Py.before_first " - " text))
      else
        let by_space :=
          if String.prefix "gelback " low || String.prefix "gel back " low
          then match Py.split_once " " text with
               | [_; rest] => Some (Py.lower (Py.strip rest))
               | _ => None
               end
          else None in
        match by_space with
        | Some r => r
        | None => Py.lower text
        end
  end.

End TestColourMatching.

(** ** Variant descriptor builder *)

(** A spreadsheet cell as pandas hands it to the loader: a missing
    attribute or [None], a NaN, a text, or any other value with its
    [str()] rendering and its truth value. *)
Inductive cell :=
| CellNone
| CellNaN
| CellStr (s : string)
| CellOther (repr : string) (truth : bool).

Definition clean_cell_value (value : cell) : option string :=
  match value with
  | CellNone => None
  | CellStr s => let cleaned := Py.strip s in
                 if Py.truthy cleaned then Some cleaned else None
  | CellNaN => None
  | CellOther repr _ => let text := Py.strip repr in
                        if Py.truthy text then Some text else None
  end.

Definition cell_truthy (value : cell) : bool :=
  match value with
  | CellNone => false
  | CellNaN => true
  | CellStr s => Py.truthy s
  | CellOther _ truth => truth
  end.

Definition cell_str (value : cell) : string :=
  match value with
  | CellNone => "None"
  | CellNaN => "nan"
  | CellStr s => s
  | CellOther repr _ => repr
  end.

(** Truthiness of an [Optional[str]]. *)
Definition opt_truthy (o : option string) : bool :=
  match o with Some s => Py.truthy s | None => false end.

(** [a or b] on [Optional[str]]. *)
Definition opt_or (a b : option string) : option string :=
  if opt_truthy a then a else b.

(** One row of the data frame after the column renaming, with the
    [listing_url] column already filtered and stripped. *)
Record SheetRow := {
  row_listing_url : string;
  row_variation : cell;
  row_pack_type : cell;
  row_dimensions : cell;
  row_sheet_stock_status : cell;
  row_stock_name : cell;
  row_sr_no : cell;
  row_item_number : cell;
}.

Record VariantRecord := {
  row_index : nat;
  excel_row : nat;
  source_url : string;
  sr_no : cell;
  stock_name : option string;
  variation : option string;
  size : option string;
  dimensions : option string;
  sheet_stock_status : option string;
  item_number : option string;
  listing_url : string;
}.

Definition COLOUR_WORDS : list string :=
  ["cream"; "black"; "grey"; "gray"; "brown"; "beige"; "blue"; "green";
   "white"; "red"; "silver"; "dark"].

Definition str_in (s : string) (l : list string) : bool :=
  existsb (String.eqb s) l.

(** The scan of the whitespace-split product name for a colour word;
    [None] when the loop finds none. *)
Fixpoint colour_from_parts (parts : list string) : option string :=
  match parts with
  | [] => None
  | part :: rest =>
      if str_in (Py.lower part) COLOUR_WORDS
      then
        let remaining := Py.join " " parts in
        if Py.contains " - " remaining
        then Some (Py.strip (Py.before_first " - " remaining) +:+ " - Greekey")
        else Some (Py.strip remaining)
      else colour_from_parts rest
  end.

Definition colour_from_name (name : string) : option string :=
  colour_from_parts (Py.split_ws name).

Definition size_clean (s : string) : string :=
  Py.strip (Py.replace "cm" "" (Py.replace " cm" "" (Py.lower s))).

(** The backward walk over [history_records], most recent first; [color]
    is the loop's running value. *)
Fixpoint inherit_from_history (base_url : string) (color : option string)
    (prevs : list VariantRecord) : option string :=
  match prevs with
  | [] => color
  | prev_record :: rest =>
      if String.eqb (listing_url prev_record) base_url
      then
        if opt_truthy (variation prev_record)
           && Py.contains " - Greekey" (default "" (variation prev_record))
        then
          let prev_size_clean :=
            if opt_truthy (size prev_record)
            then size_clean (default "" (size prev_record)) else "" in
          if Py.truthy prev_size_clean
          then variation prev_record
          else inherit_from_history base_url color rest
        else if opt_truthy (stock_name prev_record) && negb (opt_truthy color)
        then
          let color' :=
            match colour_from_name (default "" (stock_name prev_record)) with
            | Some inherited_color => Some inherited_color
            | None => color
            end in
          if opt_truthy color' then color'
          else inherit_from_history base_url color' rest
        else inherit_from_history base_url color rest
      else color
  end.

Definition SIZE_PLACEHOLDERS : list string := [""; "n/a"; "na"; "select"; "rug"].

(** Lines 314-318: the working size value. *)
Definition resolve_size (dimensions pack_type : option string) : option string :=
  let size_value := opt_or dimensions pack_type in
  let size_value :=
    if opt_truthy size_value
       && str_in (Py.lower (Py.strip (default "" size_value))) SIZE_PLACEHOLDERS
    then dimensions else size_value in
  if negb (opt_truthy size_value) then pack_type else size_value.

Section Loader.

(** [urlparse(raw_url)._replace(query="", fragment="").geturl()], the
    standard library's URL handling. *)
Variable strip_query_fragment : string -> string.

Record loader_state := {
  records : list VariantRecord;
  history_records : list VariantRecord;
  last_variation_by_listing : gmap string string;
}.

Definition initial_state : loader_state :=
  {| records := []; history_records := []; last_variation_by_listing := ∅ |}.

(** Lines 246-331: the record built for row [idx], with the table as
    the row leaves it. *)
Definition build_record (idx : nat) (row : SheetRow) (st : loader_state)
  : VariantRecord * gmap string string :=
  let raw_url := row_listing_url row in
  let base_url := strip_query_fragment raw_url in
  let color := clean_cell_value (row_variation row) in
  let '(color, table) :=
    if opt_truthy color
    then (color, <[base_url := default "" color]> (last_variation_by_listing st))
    else (last_variation_by_listing st !! base_url, last_variation_by_listing st) in
  let pack_type := clean_cell_value (row_pack_type row) in
  let dimensions := clean_cell_value (row_dimensions row) in
  let status_value := clean_cell_value (row_sheet_stock_status row) in
  let product_name := clean_cell_value (row_stock_name row) in
  let color :=
    if negb (opt_truthy color) && opt_truthy product_name
    then match colour_from_name (default "" product_name) with
         | Some c => Some c
         | None => color
         end
    else color in
  let color :=
    if negb (opt_truthy color)
    then
      let current_size := opt_or dimensions pack_type in
      if opt_truthy current_size
      then inherit_from_history base_url color (reverse (history_records st))
      else color
    else color in
  let size_value := resolve_size dimensions pack_type in
  ({| row_index := idx;
      excel_row := idx + 2;
      source_url := raw_url;
      sr_no := row_sr_no row;
      stock_name := product_name;
      variation := color;
      size := size_value;
      dimensions := dimensions;
      sheet_stock_status := status_value;
      item_number := if cell_truthy (row_item_number row)
                     then Some (cell_str (row_item_number row)) else None;
      listing_url := base_url |}, table).

(** The loop over the rows, numbered from [idx]; it stops at the first
    row that fills [records] up to [limit]. *)
Fixpoint load_loop (start_row : Z) (limit : option Z) (idx : nat)
    (rows : list SheetRow) (st : loader_state) : loader_state :=
  match rows with
  | [] => st
  | row :: rest =>
      let '(record, table) := build_record idx row st in
      let history := history_records st ++ [record] in
      if (Z.of_nat idx <? start_row)%Z
      then load_loop start_row limit (S idx) rest
             {| records := records st; history_records := history;
                last_variation_by_listing := table |}
      else
        let st' := {| records := records st ++ [record];
                      history_records := history;
                      last_variation_by_listing := table |} in
        match limit with
        | Some lim =>
            if (lim <=? Z.of_nat (length (records st')))%Z then st'
            else load_loop start_row limit (S idx) rest st'
        | None => load_loop start_row limit (S idx) rest st'
        end
  end.

(** [load_variants_from_excel] on the rows of the sheet. *)
Definition load_variants_from_excel (rows : list SheetRow)
    (limit : option Z) (start_row : option Z) : list VariantRecord :=
  let start_row :=
    match start_row with
    | None => 1%Z
    | Some s => if (s <? 1)%Z then 1%Z else s
    end in
  records (load_loop start_row limit 1 rows initial_state).

(** One turn of the loop when the row is neither skipped nor the last
    one the limit allows. *)
Definition advance (idx : nat) (row : SheetRow) (st : loader_state) : loader_state :=
  {| records := records st ++ [(build_record idx row st).1];
     history_records := history_records st ++ [(build_record idx row st).1];
     last_variation_by_listing := (build_record idx row st).2 |}.

(** The claim's "colour of the most recent earlier row sharing its
    listingUrl": what a table keyed by listing holds for [url] once
    [rows] have gone by, [before] being what it held at first. *)
Definition most_recent_colour (url : string) (rows : list SheetRow)
    (before : option string) : option string :=
  foldl (fun held row =>
           if String.eqb (strip_query_fragment (row_listing_url row)) url
           then match clean_cell_value (row_variation row) with
                | Some c => Some c
                | None => held
                end
           else held) before rows.

End Loader.

(** A concrete reading of the URL step for listing URLs of the form
    [scheme://host/path?query#fragment]: the text before the first [?]
    or [#]. *)
Fixpoint cut_query_fragment (url : string) : string :=
  match url with
  | EmptyString => EmptyString
  | String c rest =>
      if Ascii.eqb c "?"%char || Ascii.eqb c "#"%char then EmptyString
      else String c (cut_query_fragment rest)
  end.

(** ** Static availability detector *)

(** A value returned by [json.loads]; a number keeps only its text. *)
#[local] Set Warnings "-register-all".
Inductive json :=
| JNull
| JBool (b : bool)
| JNum (repr : string)
| JStr (s : string)
| JList (items : list json)
| JDict (fields : list (string * json)).

(** [d.get(key)] on a parsed object, whose keys are distinct. *)
Fixpoint dict_get (key : string) (fields : list (string * json)) : option json :=
  match fields with
  | [] => None
  | (k, v) :: rest => if String.eqb k key then Some v else dict_get key rest
  end.

Definition AVAILABILITY_JSON_KEYS : list string := ["availability"; "availabilityType"].

(** The table in the order the dictionary literal lists it, which is the
    order [AVAILABILITY_STRINGS.items()] iterates in. *)
Definition AVAILABILITY_STRINGS : list (string * string) :=
  [("http://schema.org/InStock", "IN_STOCK");
   ("http://schema.org/OutOfStock", "OUT_OF_STOCK");
   ("InStock", "IN_STOCK");
   ("OutOfStock", "OUT_OF_STOCK");
   ("AVAILABLE", "IN_STOCK");
   ("UNAVAILABLE", "OUT_OF_STOCK")].

Fixpoint availability_strings_get (value : string) (table : list (string * string))
  : option string :=
  match table with
  | [] => None
  | (token, status) :: rest =>
      if String.eqb token value then Some status
      else availability_strings_get value rest
  end.

(** The standardised status of a field value, when the value is a string
    the table knows. *)
Definition standardise (value : option json) : option string :=
  match value with
  | Some (JStr v) =>
      match availability_strings_get v AVAILABILITY_STRINGS with
      | Some standardised => if Py.truthy standardised then Some standardised else None
      | None => None
      end
  | _ => None
  end.

Fixpoint first_standardised (keys : list string) (data : list (string * json))
  : option string :=
  match keys with
  | [] => None
  | key :: rest =>
      match standardise (dict_get key data) with
      | Some st => Some st
      | None => first_standardised rest data
      end
  end.

Definition parse_availability_from_json (data : list (string * json)) : option string :=
  match first_standardised AVAILABILITY_JSON_KEYS data with
  | Some st => Some st
  | None =>
      match dict_get "offers" data with
      | Some (JDict offers) => standardise (dict_get "availability" offers)
      | _ => None
      end
  end.

(** The inner loop over the entries of a list payload. *)
Fixpoint availability_of_entries (entries : list json) : option string :=
  match entries with
  | [] => None
  | JDict entry :: rest =>
      match parse_availability_from_json entry with
      | Some availability => Some availability
      | None => availability_of_entries rest
      end
  | _ :: rest => availability_of_entries rest
  end.

Definition availability_of_payload (payload : json) : option string :=
  match payload with
  | JDict data => parse_availability_from_json data
  | JList entries => availability_of_entries entries
  | _ => None
  end.

(** The last fallback: the first table token that occurs in the raw
    document. *)
Fixpoint scan_tokens (table : list (string * string)) (html : string) : option string :=
  match table with
  | [] => None
  | (token, status) :: rest =>
      if Py.contains token html then Some status else scan_tokens rest html
  end.

(** The double quote, and the text [availability] between double quotes
    followed by a colon that line 415 looks for. *)
Definition dquote : string := String (ascii_of_nat 34) EmptyString.

Definition AVAILABILITY_FIELD : string := dquote +:+ "availability" +:+ dquote +:+ ":".

(** What the detector takes from BeautifulSoup and the [json] module. *)
Record HtmlLibrary := {
  (** [script.string] of every [application/ld+json] script element, in
      document order; [None] where the element has no single string. *)
  ld_json_scripts : string -> list (option string);
  (** [json.loads]; [None] for a [JSONDecodeError]. *)
  json_loads : string -> option json;
  (** [soup.get_text(" ", strip=True)] *)
  get_text : string -> string;
}.

Section Detector.

Variable lib : HtmlLibrary.

(** The loop over the structured-data blocks; a block that does not
    parse is skipped. *)
Fixpoint structured_availability (scripts : list (option string)) : option string :=
  match scripts with
  | [] => None
  | None :: rest => structured_availability rest
  | Some text :: rest =>
      match json_loads lib text with
      | None => structured_availability rest
      | Some payload =>
          match availability_of_payload payload with
          | Some availability => Some availability
          | None => structured_availability rest
          end
      end
  end.

Definition detect_availability (html : string) : string :=
  match structured_availability (ld_json_scripts lib html) with
  | Some availability => availability
  | None =>
      let normalized := Py.lower (get_text lib html) in
      if Py.contains "out of stock" normalized then "OUT_OF_STOCK"
      else if Py.contains "in stock" normalized || Py.contains "last one" normalized
      then "IN_STOCK"
      else
        match (if Py.contains AVAILABILITY_FIELD html
               then scan_tokens AVAILABILITY_STRINGS html else None) with
        | Some status => status
        | None => "UNKNOWN"
        end
  end.

End Detector.

(** ** Challenge and retry controller, static mode *)

Definition CHALLENGE_MARKERS : list string :=
  ["Pardon our interruption"; "captcha"; "ebay-static-captcha"; "challenge"].

Definition CHALLENGE_MARKERS_LOWER : list string := map Py.lower CHALLENGE_MARKERS.

(** [any(marker in lowered for marker in CHALLENGE_MARKERS_LOWER)] *)
Definition has_challenge_marker (lowered : string) : bool :=
  existsb (fun marker => Py.contains marker lowered) CHALLENGE_MARKERS_LOWER.

(** The exceptions the controllers tell apart, with their [str()]. *)
Inductive exn :=
| ChallengeDetected (msg : string)
| PlaywrightTimeoutError (msg : string)
| OtherException (msg : string).

Definition exn_str (e : exn) : string :=
  match e with
  | ChallengeDetected msg | PlaywrightTimeoutError msg | OtherException msg => msg
  end.

(** What [session.get] does on one call. *)
Inductive get_outcome :=
| Response (status_code : Z) (text : string)
| GetRaises (msg : string).

(** What the run does to the outside, in order. [Sleep k] is a sleep of
    [k] times the configured delay. *)
Inductive event :=
| Get (url : string)
| Sleep (k : nat).

(** The outside world of a static run: the number of requests made so
    far, which the session's answer may depend on, and the events. *)
Record world := {
  requests_made : nat;
  events : list event;
}.

Definition emit (e : event) (w : world) : world :=
  {| requests_made := requests_made w; events := events w ++ [e] |}.

Definition is_get (url : string) (e : event) : bool :=
  match e with
  | Get u => String.eqb u url
  | Sleep _ => false
  end.

Definition count_gets (url : string) (evs : list event) : nat :=
  length (List.filter (is_get url) evs).

(** The URL parts the result rows take from [urllib.parse]. *)
Record UrlLibrary := {
  (** [urlparse(url).path] *)
  url_path : string -> string;
  (** [parse_qs(urlparse(url).query).get("var")] *)
  query_var : string -> option (list string);
}.

Record DetectionResult := {
  res_row_index : nat;
  res_excel_row : nat;
  res_sheet_sr_no : cell;
  res_stock_name : option string;
  res_variation : option string;
  res_size : option string;
  res_dimensions : option string;
  res_sheet_stock_status : option string;
  detected_status : string;
  res_item_number : option string;
  res_variation_id : option string;
  res_listing_url : string;
  res_source_url : option string;
  error : option string;
}.

Section Urls.

Variable urls : UrlLibrary.

(** [s.split("/")] *)
Fixpoint split_slash_go (cur : string) (s : string) : list string :=
  match s with
  | EmptyString => [cur]
  | String c s' =>
      if Ascii.eqb c "/"%char then cur :: split_slash_go EmptyString s'
      else split_slash_go (cur +:+ String c EmptyString) s'
  end.

Definition base_item_id (record : VariantRecord) : option string :=
  if negb (Py.truthy (listing_url record)) then None
  else
    let path_parts :=
      split_slash_go EmptyString (Py.rstrip_slash (url_path urls (listing_url record))) in
    head (List.filter Py.str_isdigit (reverse path_parts)).

Definition variation_id (record : VariantRecord) : option string :=
  match query_var urls (source_url record) with
  | Some (v :: _) => Some v
  | _ => None
  end.

Definition result_row (record : VariantRecord) (with_source : bool)
    (availability : string) (error_message : option string) : DetectionResult :=
  {| res_row_index := row_index record;
     res_excel_row := excel_row record;
     res_sheet_sr_no := sr_no record;
     res_stock_name := stock_name record;
     res_variation := variation record;
     res_size := size record;
     res_dimensions := dimensions record;
     res_sheet_stock_status := sheet_stock_status record;
     detected_status := availability;
     res_item_number := opt_or (item_number record) (base_item_id record);
     res_variation_id := variation_id record;
     res_listing_url := listing_url record;
     res_source_url := if with_source then Some (source_url record) else None;
     error := error_message |}.

End Urls.

(** The five states a result row can report, the keys of the table
    [status_normalization] of the sheet writer. *)
Definition DETECTED_STATUSES : list string :=
  ["IN_STOCK"; "OUT_OF_STOCK"; "BLOCKED"; "ERROR"; "UNKNOWN"].


Section Requests.

Variable lib : HtmlLibrary.
Variable urls : UrlLibrary.

(** The session: the answer to the request numbered [n] of the run. *)
Variable session_get : nat -> string -> get_outcome.

Definition fetch_listing_html (url : string) (w : world) : (exn + string) * world :=
  let w' := {| requests_made := S (requests_made w); events := events w ++ [Get url] |} in
  match session_get (requests_made w) url with
  | GetRaises msg => (inl (OtherException msg), w')
  | Response status_code text =>
      if negb (status_code =? 200)%Z
      then (inl (OtherException
              ("Unexpected status " +:+ pretty status_code +:+ " for " +:+ url)), w')
      else if has_challenge_marker (Py.lower text)
      then (inl (ChallengeDetected ("Bot challenge detected for " +:+ url)), w')
      else (inr text, w')
  end.

(** The state of the retry loop of one descriptor. *)
Record attempt_state := {
  attempts : nat;
  availability : string;
  error_message : option string;
}.

(** The [while attempts <= max_retries] loop; [remaining] is the
    number of iterations the condition still allows, so a run out of
    [remaining] is the loop's [else] branch. *)
Fixpoint request_loop (remaining : nat) (url : string) (st : attempt_state) (w : world)
  : attempt_state * world :=
  match remaining with
  | O => (st, w)
  | S remaining' =>
      match fetch_listing_html url w with
      | (inr html, w1) =>
          ({| attempts := S (attempts st);
              availability := detect_availability lib html;
              error_message := None |}, w1)
      | (inl (ChallengeDetected msg), w1) =>
          request_loop remaining' url
            {| attempts := S (attempts st); availability := "BLOCKED";
               error_message := Some msg |} (emit (Sleep 2) w1)
      | (inl exc, w1) =>
          request_loop remaining' url
            {| attempts := S (attempts st); availability := "ERROR";
               error_message := Some (exn_str exc) |} (emit (Sleep 1) w1)
      end
  end.

(** Iterations of [while attempts <= max_retries] from [attempts = 0]. *)
Definition iterations (max_retries : Z) : nat := Z.to_nat (max_retries + 1).

Definition check_record (max_retries : Z) (record : VariantRecord) (w : world)
  : attempt_state * world :=
  request_loop (iterations max_retries) (listing_url record)
    {| attempts := 0; availability := "BLOCKED"; error_message := None |} w.

(** The loop over the descriptors from position [index] on, [total]
    being [len(records)]: the pacing sleep follows every descriptor but
    the last. *)
Fixpoint process_records (max_retries : Z) (total index : nat)
    (todo : list VariantRecord) (w : world) : list DetectionResult * world :=
  match todo with
  | [] => ([], w)
  | record :: rest =>
      let '(st, w1) := check_record max_retries record w in
      let row := result_row urls record true (availability st) (error_message st) in
      let w2 := if (index <? total)%nat then emit (Sleep 1) w1 else w1 in
      let '(rows, w3) := process_records max_retries total (S index) rest w2 in
      (row :: rows, w3)
  end.

Definition process_variants_requests (records : list VariantRecord)
    (max_retries : Z) (w : world) : list DetectionResult * world :=
  process_records max_retries (length records) 1 records w.

End Requests.

(** ** Interactive selection engine *)

Definition interpret_option_state (option_text : string) (class_attr : option string)
    (aria_disabled : option string) : bool * string :=
  let text_lower := Py.lower option_text in
  let '(disabled, reason) := (false, "") in
  let '(disabled, reason) :=
    if opt_truthy class_attr
       && Py.contains "listbox__option--disabled" (default "" class_attr)
    then (true, "Option marked out of stock (disabled class)")
    else (disabled, reason) in
  let '(disabled, reason) :=
    if bool_decide (aria_disabled = Some "true")
    then (true, "Option marked out of stock (aria-disabled=true)")
    else (disabled, reason) in
  let '(disabled, reason) :=
    if Py.contains "out of stock" text_lower
    then (true, "Label indicates out of stock")
    else (disabled, reason) in
  (disabled, reason).

(** One option element of a selector, as the driver reports it. *)
Record OptionElement := {
  opt_inner_text : string;
  opt_data_sku_value_name : option string;
  opt_class : option string;
  opt_aria_disabled : option string;
  opt_disabled : option string;
  opt_value : option string;
  (** [click(timeout=10000)] on the option times out *)
  opt_click_times_out : bool;
}.

(** One selector widget of the page. *)
Record Widget := {
  (** the text of the label element; [None] when reading it times out
      or yields nothing *)
  w_label : option string;
  (** one of the two button locators finds a button *)
  w_has_button : bool;
  (** the options under the resolved options container *)
  w_options : list OptionElement;
  (** an exception the driver raises when the widget is operated: the
      click that opens a popup, [select_option] on a native control *)
  w_fault : option exn;
}.

Inductive group_type := vim | msku | select.

#[global] Instance group_type_eq_dec : EqDecision group_type.
Proof. solve_decision. Defined.

(** The rendered page. *)
Record Page := {
  (** [inner_text("body")]; [None] when it times out *)
  body_text : option string;
  page_url : string;
  sku_containers : list Widget;
  msku_groups : list Widget;
  legacy_selects : list Widget;
  (** [textContent] of the five availability-message elements, in the
      order the probing script asks for them *)
  availability_messages : list (option string);
  (** the purchase button, with its disabled state *)
  atc_button : option bool;
  (** how many calls of [page.evaluate] raise before one answers *)
  evaluate_failures : nat;
}.

(** A lazy locator: the flavour of the widget and its position. *)
Definition locator : Type := group_type * nat.

Record VariantGroup := {
  grp_label : string;
  grp_locator : locator;
  grp_type : group_type;
}.

Definition widgets_of (page : Page) (kind : group_type) : list Widget :=
  match kind with
  | vim => sku_containers page
  | msku => msku_groups page
  | select => legacy_selects page
  end.

Definition empty_widget : Widget :=
  {| w_label := None; w_has_button := false; w_options := []; w_fault := None |}.

(** What a locator finds on the page as it is now. *)
Definition locate (page : Page) (loc : locator) : Widget :=
  default empty_widget (widgets_of page (fst loc) !! snd loc).

Fixpoint collect_of_kind (kind : group_type) (idx : nat) (ws : list Widget)
  : list VariantGroup :=
  match ws with
  | [] => []
  | w :: rest =>
      let label :=
        match kind, w_label w with
        | select, Some l => if Py.truthy l then Some (Py.strip l) else None
        | _, Some l => if Py.truthy (Py.strip l) then Some (Py.strip l) else None
        | _, None => None
        end in
      match label with
      | None => collect_of_kind kind (S idx) rest
      | Some l =>
          {| grp_label := Py.rstrip_colon l; grp_locator := (kind, idx);
             grp_type := kind |} :: collect_of_kind kind (S idx) rest
      end
  end.

Definition collect_variant_groups (page : Page) : list VariantGroup :=
  collect_of_kind vim 0 (sku_containers page)
  ++ collect_of_kind msku 0 (msku_groups page)
  ++ collect_of_kind select 0 (legacy_selects page).

Inductive dimension := dim_variation | dim_size.

Definition GROUP_KEYWORDS (d : dimension) : list string :=
  match d with
  | dim_size => ["size"; "length"; "dimensions"]
  | dim_variation => ["colour"; "color"; "design"; "style"; "pattern"]
  end.

Definition label_has_keyword (keywords : list string) (group : VariantGroup) : bool :=
  existsb (fun keyword => Py.contains keyword (normalize_label (grp_label group))) keywords.

(** The first index from [idx] on that is not in [used_indices] and whose
    group satisfies [p]. *)
Fixpoint first_unused (p : VariantGroup -> bool) (used_indices : gset nat)
    (idx : nat) (groups : list VariantGroup) : option nat :=
  match groups with
  | [] => None
  | group :: rest =>
      if bool_decide (idx ∈ used_indices) then first_unused p used_indices (S idx) rest
      else if p group then Some idx
      else first_unused p used_indices (S idx) rest
  end.

Definition find_group_for_dimension (groups : list VariantGroup) (d : dimension)
    (used_indices : gset nat) : option nat :=
  match first_unused (label_has_keyword (GROUP_KEYWORDS d)) used_indices 0 groups with
  | Some idx => Some idx
  | None => first_unused (fun _ => true) used_indices 0 groups
  end.

(** [(group_idx, dim_type, dim_value)] *)
Definition assignment : Type := nat * dimension * string.

(** Lines 913-936: the group of each requested dimension, both looked up
    with an empty set of used indices, then sorted by group index. *)
Definition assign_dimensions (groups : list VariantGroup) (record : VariantRecord)
  : list assignment :=
  let for_variation :=
    if opt_truthy (variation record)
    then match find_group_for_dimension groups dim_variation ∅ with
         | Some group_idx => [(group_idx, dim_variation, default "" (variation record))]
         | None => []
         end
    else [] in
  let for_size :=
    if opt_truthy (size record)
    then match find_group_for_dimension groups dim_size ∅ with
         | Some group_idx => [(group_idx, dim_size, default "" (size record))]
         | None => []
         end
    else [] in
  for_variation ++ for_size.

(** [list.sort(key=lambda x: x[0])]: stable. *)
Fixpoint insert_by_index (a : assignment) (sorted : list assignment) : list assignment :=
  match sorted with
  | [] => [a]
  | b :: rest =>
      if (fst (fst b) <=? fst (fst a))%nat then b :: insert_by_index a rest
      else a :: sorted
  end.

Definition sort_by_index (l : list assignment) : list assignment :=
  foldl (fun acc a => insert_by_index a acc) [] l.

(** The first option, with its position, that satisfies [p]. *)
Fixpoint find_option (p : OptionElement -> bool) (idx : nat) (options : list OptionElement)
  : option (nat * OptionElement) :=
  match options with
  | [] => None
  | o :: rest => if p o then Some (idx, o) else find_option p (S idx) rest
  end.

(** The option the selection settles on: a native control is scanned by
    the text of its options; a popup first by the [data-sku-value-name]
    attribute, then by text. *)
Definition matched_option (kind : group_type) (widget : Widget) (target_value : string)
  : option (nat * OptionElement) :=
  let matches_text o := option_matches (Py.strip (opt_inner_text o)) target_value in
  let by_sku o :=
    opt_truthy (opt_data_sku_value_name o)
    && option_matches (default "" (opt_data_sku_value_name o)) target_value in
  if bool_decide (kind = select)
  then find_option matches_text 0 (w_options widget)
  else match find_option by_sku 0 (w_options widget) with
       | Some c => Some c
       | None => find_option matches_text 0 (w_options widget)
       end.

Inductive select_result :=
| Selected
| SelectionFailed (failure_reason : string)
| SelectionRaised (e : exn).

Definition not_found (target_value : string) : string :=
  "Variant value '" +:+ target_value +:+ "' not found".

(** What the run does to the browser, in order. *)
Inductive action :=
| Goto (url : string)
| SelectFrom (group_idx : nat) (d : dimension) (target_value : string)
| Choose (loc : locator) (option_idx : nat)
| Evaluate
| Wait (k : nat).

(** [page.evaluate(script)] of the availability probe, once it answers;
    [String.prototype.trim] removes TAB, LF, VT, FF, CR and the space. *)
Definition js_trim (s : string) : string :=
  let ws c := let n := nat_of_ascii c in
              ((9 <=? n)%nat && (n <=? 13)%nat) || (n =? 32)%nat in
  Py.rstrip_by ws (Py.lstrip_by ws s).

Fixpoint first_message (messages : list (option string)) : option string :=
  match messages with
  | [] => None
  | Some content :: rest =>
      if Py.truthy content && Py.truthy (js_trim content) then Some (js_trim content)
      else first_message rest
  | None :: rest => first_message rest
  end.

Definition availability_script (page : Page) : option string :=
  match first_message (availability_messages page) with
  | Some text => Some text
  | None =>
      match atc_button page with
      | Some disabled =>
          Some (if disabled then "Add to basket disabled" else "Add to basket enabled")
      | None => None
      end
  end.

Definition evaluate_availability (page : Page) : string * option string :=
  if (2 <=? evaluate_failures page)%nat then ("IN_STOCK", None)
  else
    let availability_text := availability_script page in
    if opt_truthy availability_text
    then
      let lowered := Py.lower (default "" availability_text) in
      if Py.contains "out of stock" lowered || Py.contains "unavailable" lowered
      then ("OUT_OF_STOCK", availability_text)
      else if Py.contains "add to basket disabled" lowered
      then ("OUT_OF_STOCK", availability_text)
      else ("IN_STOCK", availability_text)
    else ("IN_STOCK", availability_text).

Definition detect_challenge (page : Page) : bool :=
  let main_text := match body_text page with
                   | Some t => Py.lower t
                   | None => ""
                   end in
  if has_challenge_marker main_text then true
  else if Py.truthy (page_url page) && Py.contains "splashui/challenge" (page_url page)
  then true
  else false.

(** Line 949: the failure reasons that count as "out of stock". *)
Definition indicates_disablement (failure_reason : string) : bool :=
  let reason_lower := Py.lower failure_reason in
  existsb (fun keyword => Py.contains keyword reason_lower)
    ["out of stock"; "disabled"; "aria-disabled"].

Definition classify_failure (failure_reason : string) : string :=
  if indicates_disablement failure_reason then "OUT_OF_STOCK" else "ERROR".

(** The browser of an interactive run. *)
Record browser := {
  visits : nat;
  current : Page;
  actions : list action;
}.

Definition log (a : action) (b : browser) : browser :=
  {| visits := visits b; current := current b; actions := actions b ++ [a] |}.

Definition show (page : Page) (b : browser) : browser :=
  {| visits := visits b; current := page; actions := actions b |}.

(** How one attempt of a descriptor ends: by a [break] with the status
    and detail it leaves, or by an exception. *)
Inductive attempt_result :=
| Finished (availability : string) (error_message : option string)
| Raised (e : exn).

Section Chromium.

Variable urls : UrlLibrary.

(** The page that the visit numbered [n] of the run loads, or the
    exception [page.goto] raises. *)
Variable navigate : nat -> string -> exn + Page.

(** The page after the option at [option_idx] of a widget was chosen:
    choosing in one group can change the content of another. *)
Variable react : Page -> locator -> nat -> Page.

Definition select_option_from_group (group : VariantGroup) (target_value : string)
    (b : browser) : select_result * browser :=
  let widget := locate (current b) (grp_locator group) in
  if bool_decide (grp_type group = select)
  then
    match matched_option select widget target_value with
    | Some (idx, o) =>
        if bool_decide (opt_disabled o ≠ None)
        then (SelectionFailed "Option disabled", b)
        else match w_fault widget with
             | Some e => (SelectionRaised e, b)
             | None =>
                 (Selected,
                  show (react (current b) (grp_locator group) idx)
                    (log (Choose (grp_locator group) idx) b))
             end
    | None => (SelectionFailed (not_found target_value), b)
    end
  else if negb (w_has_button widget)
  then (SelectionFailed "Variant selector button missing", b)
  else
    match w_fault widget with
    | Some e => (SelectionRaised e, b)
    | None =>
        match matched_option (grp_type group) widget target_value with
        | None => (SelectionFailed (not_found target_value), b)
        | Some (idx, chosen_option) =>
            let chosen_text := Py.strip (opt_inner_text chosen_option) in
            let '(disabled, reason) :=
              interpret_option_state chosen_text (opt_class chosen_option)
                (opt_aria_disabled chosen_option) in
            if disabled
            then (SelectionFailed (if Py.truthy reason then reason else "Option disabled"), b)
            else if opt_click_times_out chosen_option
            then (SelectionFailed
                    ("Timeout clicking option '" +:+ target_value
                     +:+ "' - element not interactable"), b)
            else (Selected,
                  show (react (current b) (grp_locator group) idx)
                    (log (Choose (grp_locator group) idx) b))
        end
    end.

(** How the loop over the assigned dimensions ends. *)
Inductive selection_outcome :=
| AllSelected
| Failed (availability : string) (error_message : option string)
| Escaped (e : exn).

(** Lines 939-956: the loop over [dimensions_with_group]. *)
Fixpoint select_dimensions (groups : list VariantGroup) (todo : list assignment)
    (used_indices : gset nat) (b : browser) : selection_outcome * browser :=
  match todo with
  | [] => (AllSelected, b)
  | (group_idx, dim_type, dim_value) :: rest =>
      if bool_decide (group_idx ∈ used_indices)
      then select_dimensions groups rest used_indices b
      else
        let used_indices := {[group_idx]} ∪ used_indices in
        match groups !! group_idx with
        | None => (Escaped (OtherException "list index out of range"), b)
        | Some group =>
            match select_option_from_group group dim_value
                    (log (SelectFrom group_idx dim_type dim_value) b) with
            | (Selected, b1) => select_dimensions groups rest used_indices b1
            | (SelectionFailed failure_reason, b1) =>
                (Failed (classify_failure failure_reason) (Some failure_reason), b1)
            | (SelectionRaised e, b1) => (Escaped e, b1)
            end
        end
  end.

(** Lines 894-975: the body of one attempt. *)
Definition attempt (record : VariantRecord) (b : browser) : attempt_result * browser :=
  let b0 := {| visits := S (visits b); current := current b;
               actions := actions b ++ [Goto (listing_url record)] |} in
  match navigate (visits b) (listing_url record) with
  | inl e => (Raised e, b0)
  | inr page =>
      let b1 := show page b0 in
      if detect_challenge page
      then (Raised (ChallengeDetected "Bot challenge page encountered"), b1)
      else
        let groups := collect_variant_groups page in
        let dimensions_with_group := sort_by_index (assign_dimensions groups record) in
        match select_dimensions groups dimensions_with_group ∅ b1 with
        | (Failed availability error_message, b2) =>
            (Finished availability error_message, b2)
        | (Escaped e, b2) => (Raised e, b2)
        | (AllSelected, b2) =>
            let '(availability, availability_detail) :=
              evaluate_availability (current b2) in
            (Finished availability
               (if String.eqb availability "OUT_OF_STOCK" && opt_truthy availability_detail
                then availability_detail else None),
             log Evaluate b2)
        end
  end.

(** The retry loop of one descriptor, as [request_loop] above. *)
Fixpoint chromium_loop (remaining : nat) (record : VariantRecord)
    (st : attempt_state) (b : browser) : attempt_state * browser :=
  match remaining with
  | O => (st, b)
  | S remaining' =>
      match attempt record b with
      | (Finished availability error_message, b1) =>
          ({| attempts := S (attempts st); availability := availability;
              error_message := error_message |}, b1)
      | (Raised (ChallengeDetected msg), b1) =>
          chromium_loop remaining' record
            {| attempts := S (attempts st); availability := "BLOCKED";
               error_message := Some msg |} (log (Wait 1) b1)
      | (Raised (PlaywrightTimeoutError msg), b1) =>
          chromium_loop remaining' record
            {| attempts := S (attempts st); availability := "ERROR";
               error_message := Some ("Timeout: " +:+ msg) |} (log (Wait 1) b1)
      | (Raised (OtherException msg), b1) =>
          chromium_loop remaining' record
            {| attempts := S (attempts st); availability := "ERROR";
               error_message := Some msg |} (log (Wait 1) b1)
      end
  end.

Definition check_record_chromium (max_retries : Z) (record : VariantRecord) (b : browser)
  : attempt_state * browser :=
  chromium_loop (iterations max_retries) record
    {| attempts := 0; availability := "BLOCKED"; error_message := None |} b.

Fixpoint process_records_chromium (max_retries : Z) (total index : nat)
    (todo : list VariantRecord) (b : browser) : list DetectionResult * browser :=
  match todo with
  | [] => ([], b)
  | record :: rest =>
      let '(st, b1) := check_record_chromium max_retries record b in
      let row := result_row urls record false (availability st) (error_message st) in
      let b2 := if (index <? total)%nat then log (Wait 1) b1 else b1 in
      let '(rows, b3) := process_records_chromium max_retries total (S index) rest b2 in
      (row :: rows, b3)
  end.

Definition process_variants_chromium (records : list VariantRecord)
    (max_retries : Z) (b : browser) : list DetectionResult * browser :=
  process_records_chromium max_retries (length records) 1 records b.

End Chromium.

(** ** The shape of a settled retry loop *)

(** Static mode: no detail and a status read off the document, or a
    detail and the status of the last failed attempt. *)
Definition settled_static (st : attempt_state) : Prop :=
  (error_message st = None
   /\ In (availability st) ["IN_STOCK"; "OUT_OF_STOCK"; "UNKNOWN"])
  \/ (is_Some (error_message st) /\ In (availability st) ["BLOCKED"; "ERROR"]).

(** Interactive mode: no detail and IN_STOCK, or a detail and any of the
    other statuses the engine can reach. *)
Definition settled_chromium (st : attempt_state) : Prop :=
  (error_message st = None /\ availability st = "IN_STOCK")
  \/ (is_Some (error_message st)
      /\ In (availability st) ["OUT_OF_STOCK"; "BLOCKED"; "ERROR"]).

(** ** Concrete documents, feeds and pages *)

(** The library's answers on a document that has no script element and
    no text outside its tags. *)
Definition bare_markup : HtmlLibrary :=
  {| ld_json_scripts := fun _ => [];
     json_loads := fun _ => None;
     get_text := fun _ => "" |}.

(** A [div] whose [data-sku] attribute holds the object with the one
    field [availability] of value [UNAVAILABLE]. *)
Definition unavailable_document : string :=
  "<div data-sku='{" +:+ AVAILABILITY_FIELD +:+ dquote +:+ "UNAVAILABLE" +:+ dquote
  +:+ "}'></div>".

Definition listing_a : string := "https://www.ebay.co.uk/itm/363486576357".
Definition listing_b : string := "https://www.ebay.co.uk/itm/364000000001".

Definition sheet_row (url : string) (colour dims : cell) : SheetRow :=
  {| row_listing_url := url; row_variation := colour; row_pack_type := CellNaN;
     row_dimensions := dims; row_sheet_stock_status := CellStr "INSTOCK";
     row_stock_name := CellStr "Non Slip Door Mat"; row_sr_no := CellOther "1" true;
     row_item_number := CellNaN |}.

(** The block of the end-to-end example. *)
Definition green_cream_rows : list SheetRow :=
  [sheet_row (listing_a +:+ "?var=1") (CellStr "Green Cream - Greekey") (CellStr "40 x 60 cm");
   sheet_row (listing_a +:+ "?var=2") CellNaN (CellStr "60 x 110 cm");
   sheet_row (listing_a +:+ "?var=3") CellNaN (CellStr "80 x 150 cm")].

(** Two listings interleaved; the first later states a new colour. *)
Definition interleaved_rows : list SheetRow :=
  [sheet_row (listing_a +:+ "?var=1") (CellStr "Green Cream - Greekey") (CellStr "40 x 60 cm");
   sheet_row (listing_b +:+ "?var=7") (CellStr "Ochre - Gel Back 59") (CellStr "50 x 80 cm");
   sheet_row (listing_a +:+ "?var=2") CellNaN (CellStr "60 x 110 cm");
   sheet_row (listing_b +:+ "?var=8") CellNaN (CellStr "60 x 110 cm");
   sheet_row (listing_a +:+ "?var=3") (CellStr "Black Grey - Greekey") (CellStr "40 x 60 cm");
   sheet_row (listing_b +:+ "?var=9") CellNaN (CellStr "80 x 150 cm");
   sheet_row (listing_a +:+ "?var=4") CellNaN (CellStr "80 x 150 cm")].

(** A descriptor of listing A asking for a colour and a size. *)
Definition red_large : VariantRecord :=
  {| row_index := 1; excel_row := 3; source_url := listing_a +:+ "?var=1";
     sr_no := CellOther "1" true; stock_name := Some "Non Slip Door Mat";
     variation := Some "Red"; size := Some "Large"; dimensions := Some "Large";
     sheet_stock_status := Some "INSTOCK"; item_number := None;
     listing_url := listing_a |}.

Definition plain_option (text : string) : OptionElement :=
  {| opt_inner_text := text; opt_data_sku_value_name := Some text;
     opt_class := Some "listbox__option"; opt_aria_disabled := None;
     opt_disabled := None; opt_value := Some text; opt_click_times_out := false |}.

Definition popup (label : string) (options : list OptionElement) : Widget :=
  {| w_label := Some label; w_has_button := true; w_options := options;
     w_fault := None |}.

Definition listing_page (widgets : list Widget) : Page :=
  {| body_text := Some "Non Slip Door Mat"; page_url := listing_a;
     sku_containers := widgets; msku_groups := []; legacy_selects := [];
     availability_messages := [None; None; None; None; None];
     atc_button := Some false; evaluate_failures := 0 |}.

(** A listing whose selectors are labelled "Size" and "Type": no label
    carries a colour keyword. *)
Definition size_type_page : Page :=
  listing_page
    [popup "Size:" [plain_option "Small"; plain_option "Large"];
     popup "Type:" [plain_option "Red"; plain_option "Blue"]].

Definition fresh_browser : browser :=
  {| visits := 0;
     current := listing_page [];
     actions := [] |}.

(** A page that does not change when an option is chosen. *)
Definition still_page (page : Page) (loc : locator) (option_idx : nat) : Page := page.

(** The URL parts of a listing URL [https://host/itm/<id>?var=<n>]. *)
Definition listing_urls : UrlLibrary :=
  {| url_path := fun url =>
       Py.drop (String.length "https://www.ebay.co.uk") (cut_query_fragment url);
     query_var := fun url =>
       match Py.split_once "?var=" url with
       | [_; rest] => Some [Py.before_first "&" rest]
       | _ => None
       end |}.

(** A session that answers every request with a challenge page. *)
Definition captcha_session (n : nat) (url : string) : get_outcome :=
  Response 200 "<html><title>Security Measure</title><div id='captcha'></div></html>".

(** A session that answers every request with a page that says nothing
    about stock. *)
Definition silent_session (n : nat) (url : string) : get_outcome :=
  Response 200 "<html><body><h1>Non Slip Door Mat</h1></body></html>".

Definition silent_markup : HtmlLibrary :=
  {| ld_json_scripts := fun _ => [];
     json_loads := fun _ => None;
     get_text := fun _ => "Non Slip Door Mat" |}.

Definition blue_small : VariantRecord :=
  {| row_index := 2; excel_row := 4; source_url := listing_b +:+ "?var=7";
     sr_no := CellOther "2" true; stock_name := Some "Non Slip Door Mat";
     variation := Some "Blue"; size := Some "Small"; dimensions := Some "Small";
     sheet_stock_status := Some "INSTOCK"; item_number := None;
     listing_url := listing_b |}.

Definition fresh_world : world := {| requests_made := 0; events := [] |}.






(** A text that is empty or starts with a character [p] rejects. *)
Definition starts_clean (p : ascii -> bool) (s : string) : Prop :=
  match s with
  | EmptyString => True
  | String c _ => p c = false
  end.

(** An earlier record of listing B that states no colour but names one
    in its product name. *)
Definition grey_mat : VariantRecord :=
  {| row_index := 1; excel_row := 3; source_url := listing_b +:+ "?var=6";
     sr_no := CellOther "1" true; stock_name := Some "Non Slip Door Mat Dark Grey";
     variation := None; size := Some "40 x 60 cm"; dimensions := Some "40 x 60 cm";
     sheet_stock_status := Some "INSTOCK"; item_number := None;
     listing_url := listing_b |}.


(** A structured-data block that the detector passes over: it has no
    single string, does not parse, or parses to a payload without a known
    availability. *)
Definition passed_over (lib : HtmlLibrary) (script : option string) : Prop :=
  match script with
  | None => True
  | Some text =>
      match json_loads lib text with
      | None => True
      | Some payload => availability_of_payload payload = None
      end
  end.

(** A document with one structured-data block that says OutOfStock, in
    front of a block that is not JSON, and a visible text that says
    "In stock". *)
Definition out_of_stock_markup : HtmlLibrary :=
  {| ld_json_scripts := fun _ => [Some "not json"; None; Some "offer"];
     json_loads := fun text =>
       if String.eqb text "offer"
       then Some (JDict [("@type", JStr "Product");
                         ("offers", JDict [("availability",
                                            JStr "http://schema.org/OutOfStock")])])
       else None;
     get_text := fun _ => "In stock" |}.

(** * Properties *)

(** Membership in a list given by its elements. *)
Ltac in_list := cbn [In]; auto 10.

(** ** Facts about the string primitives *)

Lemma contains_tail needle c hay :
  Py.contains needle hay = true -> Py.contains needle (String c hay) = true.
Proof.
  intros H. cbn [Py.contains]. rewrite H. apply orb_true_r.
Qed.

Lemma contains_drop needle k : forall hay,
  Py.contains needle (Py.drop k hay) = true -> Py.contains needle hay = true.
Proof.
  induction k as [|k IH]; intros [|c hay] H; simpl in H; auto.
  apply contains_tail, IH, H.
Qed.

Lemma contains_of_prefix needle hay :
  String.prefix needle hay = true -> Py.contains needle hay = true.
Proof.
  intros H. destruct hay; cbn [Py.contains]; rewrite H; reflexivity.
Qed.

Lemma prefix_cons_inv a s1 s2 :
  String.prefix (String a s1) s2 = true ->
  exists s2', s2 = String a s2' /\ String.prefix s1 s2' = true.
Proof.
  destruct s2 as [|b s2']; cbn [String.prefix]; [discriminate|].
  destruct (ascii_dec a b) as [->|]; [|discriminate].
  intros H. exists s2'. split; [reflexivity | exact H].
Qed.

Lemma prefix_app_contains front back : forall hay,
  String.prefix (front +:+ back) hay = true -> Py.contains back hay = true.
Proof.
  induction front as [|c front IH]; intros hay H.
  - apply contains_of_prefix, H.
  - apply prefix_cons_inv in H as (hay' & -> & H).
    apply contains_tail, IH, H.
Qed.

(** A text that holds [front +:+ back] holds [back]. *)
Lemma contains_app_back front back : forall hay,
  Py.contains (front +:+ back) hay = true -> Py.contains back hay = true.
Proof.
  induction hay as [|c hay IH]; intros H; cbn [Py.contains] in H;
    apply orb_true_iff in H as [H|H].
  - apply (prefix_app_contains front), H.
  - discriminate H.
  - apply (prefix_app_contains front), H.
  - apply contains_tail, IH, H.
Qed.

(** Every occurrence of "UNAVAILABLE" holds an occurrence of "AVAILABLE". *)
Lemma unavailable_holds_available hay :
  Py.contains "UNAVAILABLE" hay = true -> Py.contains "AVAILABLE" hay = true.
Proof. apply (contains_app_back "UN" "AVAILABLE"). Qed.


(** ** Label normalizer *)

(** C4: [extract_base_colour] of the scraper removes a " - ..." suffix
    only.  On the three prefixed spellings it returns the whole label in
    lower case, not "pink"; only "Pink - Gel Back 59" yields "pink".  The
    function of the same name in [test_colour_matching.py] maps all four
    to "pink". *)
Theorem extract_base_colour_keeps_prefix :
  extract_base_colour "GelBack-Pink" = "gelback-pink"
  /\ extract_base_colour "Gel Back-Pink" = "gel back-pink"
  /\ extract_base_colour "GelBack Pink" = "gelback pink"
  /\ extract_base_colour "Pink - Gel Back 59" = "pink"
  /\ Forall (fun label => TestColourMatching.extract_base_colour label = "pink")
       ["GelBack-Pink"; "Gel Back-Pink"; "GelBack Pink"; "Pink - Gel Back 59"].
Proof.
  repeat split; try reflexivity.
  repeat constructor.
Qed.

(** The prefixed spellings still match the suffixed one, through the
    containment test of the colour tier. *)
Example prefixed_labels_match :
  option_matches "Pink - Gel Back 59" "GelBack-Pink" = true
  /\ option_matches "Pink - Gel Back 59" "Gel Back-Pink" = true
  /\ option_matches "Pink - Gel Back 59" "GelBack Pink" = true
  /\ option_matches "Pink - Gel Back 59" "Beige" = false
  /\ option_matches "60x110cm" "60 x 110 cm" = true.
Proof. repeat split; reflexivity. Qed.




(** ** Variant descriptor builder: the size value *)

Lemma resolve_size_is_or (dims pack : option string) :
  resolve_size dims pack = opt_or dims pack.
Proof.
  unfold resolve_size, opt_or.
  destruct (opt_truthy dims) eqn:Hd.
  - rewrite Hd. cbn [andb].
    match goal with |- context [str_in ?x ?l] => destruct (str_in x l) end;
      rewrite Hd; reflexivity.
  - destruct (opt_truthy pack) eqn:Hp; cbn [andb].
    + match goal with |- context [str_in ?x ?l] => destruct (str_in x l) end;
        rewrite ?Hd, ?Hp; reflexivity.
    + rewrite Hp. reflexivity.
Qed.

(** C7: the placeholder test of lines 315-316 puts the [dimensions] value
    back, so it never changes the outcome: the size is the [dimensions]
    field when it has one, else the pack/type field, placeholder or not.
    A row with dimensions "N/A" and pack/type "2 Pack" keeps "N/A". *)
Theorem resolve_size_keeps_placeholder :
  (forall dims pack : option string, resolve_size dims pack = opt_or dims pack)
  /\ resolve_size (clean_cell_value (CellStr "N/A")) (clean_cell_value (CellStr "2 Pack"))
     = Some "N/A"
  /\ resolve_size (clean_cell_value CellNaN) (clean_cell_value (CellStr "rug"))
     = Some "rug".
Proof.
  split; [exact resolve_size_is_or | split; reflexivity].
Qed.

(** ** Static availability detector *)

(** C8: "AVAILABLE" comes before "UNAVAILABLE" in the table and occurs
    inside it, so the raw-text scan of a document that holds
    "UNAVAILABLE" and none of the four tokens listed earlier stops at
    "AVAILABLE": the result is IN_STOCK, not OUT_OF_STOCK. *)
Theorem unavailable_token_reads_in_stock (lib : HtmlLibrary) (html : string) :
  structured_availability lib (ld_json_scripts lib html) = None ->
  Py.contains "out of stock" (Py.lower (get_text lib html)) = false ->
  Py.contains "in stock" (Py.lower (get_text lib html)) = false ->
  Py.contains "last one" (Py.lower (get_text lib html)) = false ->
  Py.contains AVAILABILITY_FIELD html = true ->
  Py.contains "UNAVAILABLE" html = true ->
  Py.contains "InStock" html = false ->
  Py.contains "OutOfStock" html = false ->
  detect_availability lib html = "IN_STOCK".
Proof.
  intros Hs Ho Hi Hl Ha Hu Hin Hout.
  assert (Hschema_in : Py.contains "http://schema.org/InStock" html = false).
  { destruct (Py.contains "http://schema.org/InStock" html) eqn:E; [|reflexivity].
    rewrite <- Hin. symmetry.
    apply (contains_app_back "http://schema.org/" "InStock"), E. }
  assert (Hschema_out : Py.contains "http://schema.org/OutOfStock" html = false).
  { destruct (Py.contains "http://schema.org/OutOfStock" html) eqn:E; [|reflexivity].
    rewrite <- Hout. symmetry.
    apply (contains_app_back "http://schema.org/" "OutOfStock"), E. }
  unfold detect_availability. rewrite Hs, Ho, Hi, Hl, Ha. cbn [orb].
  cbn [scan_tokens AVAILABILITY_STRINGS].
  rewrite Hschema_in, Hschema_out, Hin, Hout.
  rewrite (unavailable_holds_available html Hu). reflexivity.
Qed.

Lemma unavailable_token_reads_in_stock_witness :
  detect_availability bare_markup unavailable_document = "IN_STOCK".
Proof.
  apply (unavailable_token_reads_in_stock bare_markup unavailable_document);
    vm_compute; reflexivity.
Defined.

(** ** Variant descriptor builder: the running colour *)

Lemma clean_cell_value_truthy value c :
  clean_cell_value value = Some c -> opt_truthy (Some c) = true.
Proof.
  destruct value as [| |s|repr t]; cbn; try discriminate.
  - destruct (Py.truthy (Py.strip s)) eqn:E; [|discriminate].
    intros [= <-]. exact E.
  - destruct (Py.truthy (Py.strip repr)) eqn:E; [|discriminate].
    intros [= <-]. exact E.
Qed.

Section LoaderFacts.

Variable strip_query_fragment : string -> string.

Abbreviation build := (build_record strip_query_fragment).
Abbreviation loop := (load_loop strip_query_fragment 1 None).
Abbreviation advance := (advance strip_query_fragment).
Abbreviation most_recent_colour := (most_recent_colour strip_query_fragment).

Lemma build_record_size idx row st :
  size (build idx row st).1
  = resolve_size (clean_cell_value (row_dimensions row))
      (clean_cell_value (row_pack_type row)).
Proof.
  unfold build_record.
  destruct (opt_truthy (clean_cell_value (row_variation row))); reflexivity.
Qed.

Lemma build_record_listing_url idx row st :
  listing_url (build idx row st).1 = strip_query_fragment (row_listing_url row).
Proof.
  unfold build_record.
  destruct (opt_truthy (clean_cell_value (row_variation row))); reflexivity.
Qed.

Lemma build_record_explicit idx row st c :
  clean_cell_value (row_variation row) = Some c ->
  variation (build idx row st).1 = Some c
  /\ (build idx row st).2
     = <[strip_query_fragment (row_listing_url row) := c]> (last_variation_by_listing st).
Proof.
  intros Hc. pose proof (clean_cell_value_truthy _ _ Hc) as Ht.
  cbn [opt_truthy] in Ht.
  unfold build_record. rewrite Hc.
  repeat (cbn [opt_truthy negb andb fst snd variation default]; rewrite ?Ht).
  split; reflexivity.
Qed.

Lemma build_record_inherited idx row st c :
  clean_cell_value (row_variation row) = None ->
  last_variation_by_listing st !! strip_query_fragment (row_listing_url row) = Some c ->
  opt_truthy (Some c) = true ->
  variation (build idx row st).1 = Some c
  /\ (build idx row st).2 = last_variation_by_listing st.
Proof.
  intros Hc Hl Ht. cbn [opt_truthy] in Ht.
  unfold build_record. rewrite Hc. cbn [opt_truthy]. rewrite Hl.
  repeat (cbn [opt_truthy negb andb fst snd variation default]; rewrite ?Ht).
  split; reflexivity.
Qed.

Lemma build_record_table_none idx row st :
  clean_cell_value (row_variation row) = None ->
  (build idx row st).2 = last_variation_by_listing st.
Proof.
  intros Hc. unfold build_record. rewrite Hc. reflexivity.
Qed.

Lemma loop_cons idx row rest st :
  (1 <= idx)%nat ->
  loop idx (row :: rest) st = loop (S idx) rest (advance idx row st).
Proof.
  intros Hidx. cbn [load_loop].
  destruct (build idx row st) as [record table] eqn:Hb.
  assert ((Z.of_nat idx <? 1)%Z = false) as -> by lia.
  unfold advance. rewrite Hb. reflexivity.
Qed.

Lemma loop_app pre : forall idx post st,
  (1 <= idx)%nat ->
  loop idx (pre ++ post) st = loop (idx + length pre) post (loop idx pre st).
Proof.
  induction pre as [|row pre IH]; intros idx post st Hidx.
  - cbn. by rewrite Nat.add_0_r.
  - cbn [app length]. rewrite !loop_cons by done.
    rewrite IH by lia. f_equal. lia.
Qed.

(** The loop only appends to [records], one record per row. *)
Lemma loop_records rows : forall idx st,
  (1 <= idx)%nat ->
  exists built, records (loop idx rows st) = records st ++ built
                /\ length built = length rows.
Proof.
  induction rows as [|row rows IH]; intros idx st Hidx.
  - exists []. cbn. by rewrite app_nil_r.
  - rewrite loop_cons by done.
    destruct (IH (S idx) (advance idx row st)) as (built & Hb & Hl); [lia|].
    exists ((build idx row st).1 :: built). split.
    + rewrite Hb. cbn [advance records]. by rewrite <- app_assoc.
    + cbn. by rewrite Hl.
Qed.

Lemma advance_table idx row st url :
  last_variation_by_listing (advance idx row st) !! url
  = most_recent_colour url [row] (last_variation_by_listing st !! url).
Proof.
  cbn [advance last_variation_by_listing most_recent_colour foldl].
  destruct (clean_cell_value (row_variation row)) as [c|] eqn:Hc.
  - destruct (build_record_explicit idx row st c Hc) as [_ ->].
    destruct (String.eqb_spec (strip_query_fragment (row_listing_url row)) url) as [->|Hne].
    + by rewrite lookup_insert_eq.
    + by rewrite lookup_insert_ne.
  - rewrite (build_record_table_none idx row st Hc).
    by destruct (String.eqb _ url).
Qed.

(** The table after a run of rows holds, for every listing, the colour
    of the most recent row of that listing that states one. *)
Lemma loop_table rows : forall idx st url,
  (1 <= idx)%nat ->
  last_variation_by_listing (loop idx rows st) !! url
  = most_recent_colour url rows (last_variation_by_listing st !! url).
Proof.
  induction rows as [|row rows IH]; intros idx st url Hidx.
  - reflexivity.
  - rewrite loop_cons by done. rewrite IH by lia.
    rewrite advance_table. reflexivity.
Qed.

Lemma most_recent_colour_app url pre post before :
  most_recent_colour url (pre ++ post) before
  = most_recent_colour url post (most_recent_colour url pre before).
Proof. unfold most_recent_colour. apply foldl_app. Qed.

Lemma most_recent_colour_truthy url rows : forall before c,
  most_recent_colour url rows before = Some c ->
  (forall b, before = Some b -> opt_truthy (Some b) = true) ->
  opt_truthy (Some c) = true.
Proof.
  induction rows as [|row rows IH]; intros before c H Hb.
  - apply Hb, H.
  - cbn [most_recent_colour foldl] in H. apply IH in H; [exact H|].
    intros b. destruct (String.eqb _ url); [|apply Hb].
    destruct (clean_cell_value (row_variation row)) as [c'|] eqn:Hc; [|apply Hb].
    intros [= <-]. apply (clean_cell_value_truthy _ _ Hc).
Qed.

(** The record built for the row that follows [pre], and where it ends
    up in the result. *)
Lemma loaded_record pre row post :
  load_variants_from_excel strip_query_fragment (pre ++ row :: post) None None
    !! length pre
  = Some (build (S (length pre)) row (loop 1 pre initial_state)).1.
Proof.
  unfold load_variants_from_excel.
  rewrite loop_app by lia. rewrite loop_cons by lia.
  destruct (loop_records pre 1 initial_state) as (built & Hb & Hl); [lia|].
  destruct (loop_records post (S (1 + length pre))
              (advance (1 + length pre) row (loop 1 pre initial_state)))
    as (built' & Hb' & _); [lia|].
  rewrite Hb'. cbn [advance records]. rewrite Hb. cbn [initial_state records app].
  rewrite <- app_assoc. rewrite lookup_app_r by lia.
  rewrite Hl, Nat.sub_diag. reflexivity.
Qed.

Lemma loaded_variation pre row c :
  most_recent_colour (strip_query_fragment (row_listing_url row)) (pre ++ [row]) None
    = Some c ->
  variation (build (S (length pre)) row (loop 1 pre initial_state)).1 = Some c.
Proof.
  intros H. rewrite most_recent_colour_app in H.
  cbn [most_recent_colour foldl] in H. rewrite String.eqb_refl in H.
  destruct (clean_cell_value (row_variation row)) as [c'|] eqn:Hc.
  - injection H as <-. apply build_record_explicit, Hc.
  - apply build_record_inherited; [exact Hc | |].
    + rewrite loop_table by lia. cbn [initial_state last_variation_by_listing].
      rewrite lookup_empty. exact H.
    + apply (most_recent_colour_truthy _ _ _ _ H). discriminate.
Qed.

End LoaderFacts.

(** C1: three rows of one listing, the first stating the colour
    "Green Cream - Greekey" and the size "40 x 60 cm", the next two stating
    no colour and the sizes "60 x 110 cm" and "80 x 150 cm", load as three
    records that all carry "Green Cream - Greekey", each with its own
    size. *)
Theorem green_cream_block_inherits (strip_query_fragment : string -> string)
    (r1 r2 r3 : SheetRow) :
  strip_query_fragment (row_listing_url r2) = strip_query_fragment (row_listing_url r1) ->
  strip_query_fragment (row_listing_url r3) = strip_query_fragment (row_listing_url r1) ->
  clean_cell_value (row_variation r1) = Some "Green Cream - Greekey" ->
  clean_cell_value (row_variation r2) = None ->
  clean_cell_value (row_variation r3) = None ->
  opt_or (clean_cell_value (row_dimensions r1)) (clean_cell_value (row_pack_type r1))
    = Some "40 x 60 cm" ->
  opt_or (clean_cell_value (row_dimensions r2)) (clean_cell_value (row_pack_type r2))
    = Some "60 x 110 cm" ->
  opt_or (clean_cell_value (row_dimensions r3)) (clean_cell_value (row_pack_type r3))
    = Some "80 x 150 cm" ->
  map (fun record => (variation record, size record))
    (load_variants_from_excel strip_query_fragment [r1; r2; r3] None (Some 1%Z))
  = [(Some "Green Cream - Greekey", Some "40 x 60 cm");
     (Some "Green Cream - Greekey", Some "60 x 110 cm");
     (Some "Green Cream - Greekey", Some "80 x 150 cm")].
Proof.
  intros Hu2 Hu3 Hc1 Hc2 Hc3 Hs1 Hs2 Hs3.
  unfold load_variants_from_excel. cbn [Z.ltb Z.compare].
  rewrite !loop_cons by lia. cbn [load_loop].
  set (st1 := advance strip_query_fragment 1 r1 initial_state).
  set (st2 := advance strip_query_fragment 2 r2 st1).
  destruct (build_record_explicit strip_query_fragment 1 r1 initial_state _ Hc1)
    as [Hv1 Ht1].
  assert (Hl1 : last_variation_by_listing st1
                  !! strip_query_fragment (row_listing_url r1)
                = Some "Green Cream - Greekey").
  { unfold st1. cbn [advance last_variation_by_listing]. rewrite Ht1.
    apply lookup_insert_eq. }
  destruct (build_record_inherited strip_query_fragment 2 r2 st1
              "Green Cream - Greekey" Hc2) as [Hv2 Ht2];
    [by rewrite Hu2 | reflexivity |].
  assert (Hl2 : last_variation_by_listing st2
                  !! strip_query_fragment (row_listing_url r1)
                = Some "Green Cream - Greekey").
  { unfold st2. cbn [advance last_variation_by_listing]. by rewrite Ht2. }
  destruct (build_record_inherited strip_query_fragment 3 r3 st2
              "Green Cream - Greekey" Hc3) as [Hv3 _];
    [by rewrite Hu3 | reflexivity |].
  cbn [advance records].
  assert (Hr : records st2
               = [(build_record strip_query_fragment 1 r1 initial_state).1;
                  (build_record strip_query_fragment 2 r2 st1).1]) by reflexivity.
  rewrite Hr. cbn [app map].
  rewrite Hv1, Hv2, Hv3, !build_record_size, !resolve_size_is_or, Hs1, Hs2, Hs3.
  reflexivity.
Qed.

Lemma green_cream_block_inherits_witness :
  map (fun record => (variation record, size record))
    (load_variants_from_excel cut_query_fragment green_cream_rows None (Some 1%Z))
  = [(Some "Green Cream - Greekey", Some "40 x 60 cm");
     (Some "Green Cream - Greekey", Some "60 x 110 cm");
     (Some "Green Cream - Greekey", Some "80 x 150 cm")].
Proof.
  apply (green_cream_block_inherits cut_query_fragment
           (sheet_row (listing_a +:+ "?var=1") (CellStr "Green Cream - Greekey")
              (CellStr "40 x 60 cm"))
           (sheet_row (listing_a +:+ "?var=2") CellNaN (CellStr "60 x 110 cm"))
           (sheet_row (listing_a +:+ "?var=3") CellNaN (CellStr "80 x 150 cm")));
    vm_compute; reflexivity.
Defined.

(** What [most_recent_colour] says, row by row: a row of another listing
    leaves the colour held for [url] alone, a row of the listing that
    states no colour too, and a row of the listing that states one
    replaces it. *)
Lemma most_recent_colour_snoc (strip_query_fragment : string -> string)
    (url : string) (pre : list SheetRow) (row : SheetRow) (before : option string) :
  most_recent_colour strip_query_fragment url (pre ++ [row]) before
  = if String.eqb (strip_query_fragment (row_listing_url row)) url
    then match clean_cell_value (row_variation row) with
         | Some c => Some c
         | None => most_recent_colour strip_query_fragment url pre before
         end
    else most_recent_colour strip_query_fragment url pre before.
Proof. rewrite most_recent_colour_app. reflexivity. Qed.

(** C10: the table of running colours is keyed by the listing URL and
    lives as long as the feed.  Whatever rows come before a row, of its
    own listing or of others, in any order, the record built for it
    carries the colour that the most recent row of its listing, itself
    included, states: its own colour when it states one, which thereby
    replaces the table entry, and otherwise the colour of the last
    earlier row of the listing that stated one. *)
Theorem running_colour_persists (strip_query_fragment : string -> string)
    (pre : list SheetRow) (row : SheetRow) (post : list SheetRow) (c : string) :
  most_recent_colour strip_query_fragment
    (strip_query_fragment (row_listing_url row)) (pre ++ [row]) None = Some c ->
  exists record,
    load_variants_from_excel strip_query_fragment (pre ++ row :: post) None (Some 1%Z)
      !! length pre = Some record
    /\ listing_url record = strip_query_fragment (row_listing_url row)
    /\ variation record = Some c
    /\ forall later,
         clean_cell_value (row_variation later) = None ->
         strip_query_fragment (row_listing_url later)
           = strip_query_fragment (row_listing_url row) ->
         last_variation_by_listing
           (load_loop strip_query_fragment 1 None 1 (pre ++ [row]) initial_state)
           !! strip_query_fragment (row_listing_url later) = Some c.
Proof.
  intros H. eexists. split; [apply loaded_record|].
  split; [apply build_record_listing_url|].
  split; [apply loaded_variation, H|].
  intros later _ ->. rewrite loop_table by lia.
  cbn [initial_state last_variation_by_listing]. rewrite lookup_empty. exact H.
Qed.

Lemma running_colour_persists_witness :
  exists record,
    load_variants_from_excel cut_query_fragment interleaved_rows None (Some 1%Z) !! 6
      = Some record
    /\ listing_url record = listing_a
    /\ variation record = Some "Black Grey - Greekey".
Proof.
  destruct (running_colour_persists cut_query_fragment
              (take 6 interleaved_rows)
              (sheet_row (listing_a +:+ "?var=4") CellNaN (CellStr "80 x 150 cm"))
              [] "Black Grey - Greekey")
    as (record & Hrecord & Hurl & Hcolour & _).
  - vm_compute. reflexivity.
  - exists record. split; [exact Hrecord|]. split; [exact Hurl | exact Hcolour].
Defined.

Example interleaved_colours :
  map variation (load_variants_from_excel cut_query_fragment interleaved_rows None (Some 1%Z))
  = [Some "Green Cream - Greekey"; Some "Ochre - Gel Back 59";
     Some "Green Cream - Greekey"; Some "Ochre - Gel Back 59";
     Some "Black Grey - Greekey"; Some "Ochre - Gel Back 59";
     Some "Black Grey - Greekey"].
Proof. vm_compute. reflexivity. Qed.

(** ** Interactive selection engine: groups and dimensions *)

Lemma first_unused_spec p used groups : forall idx i,
  first_unused p used idx groups = Some i ->
  (i ∉ used) /\ (idx <= i < idx + length groups)%nat.
Proof.
  induction groups as [|g groups IH]; intros idx i H; [discriminate H|].
  cbn [first_unused] in H. case_bool_decide as Hin.
  - apply IH in H as [? ?]. cbn [length]. split; [done | lia].
  - destruct (p g).
    + injection H as <-. cbn [length]. split; [done | lia].
    + apply IH in H as [? ?]. cbn [length]. split; [done | lia].
Qed.

(** The lookup itself respects the set of used indices it is given. *)
Lemma find_group_avoids_used groups d used i :
  find_group_for_dimension groups d used = Some i ->
  (i ∉ used) /\ (i < length groups)%nat.
Proof.
  unfold find_group_for_dimension.
  destruct (first_unused (label_has_keyword _) used 0 groups) as [j|] eqn:E.
  - intros [= <-]. apply first_unused_spec in E as [? ?]. split; [done | lia].
  - intros H. apply first_unused_spec in H as [? ?]. split; [done | lia].
Qed.

(** C6: both dimensions are looked up with an empty set of used indices,
    so on a page whose groups are "Size" and "Type" the colour falls back
    to group 0, which the size takes by keyword as well.  The colour is
    then sought among the sizes, the size is skipped, and the second
    group is never used. *)
Theorem both_dimensions_take_first_group :
  assign_dimensions (collect_variant_groups size_type_page) red_large
    = [(0, dim_variation, "Red"); (0, dim_size, "Large")]
  /\ attempt (fun _ _ => inr size_type_page) still_page red_large fresh_browser
     = (Finished "ERROR" (Some "Variant value 'Red' not found"),
        {| visits := 1; current := size_type_page;
           actions := [Goto listing_a; SelectFrom 0 dim_variation "Red"] |}).
Proof. split; vm_compute; reflexivity. Qed.

(** ** Challenge and retry controller, static mode *)

Section RequestsFacts.

Variable lib : HtmlLibrary.
Variable urls : UrlLibrary.
Variable session_get : nat -> string -> get_outcome.

Abbreviation fetch := (fetch_listing_html session_get).
Abbreviation loop := (request_loop lib session_get).
Abbreviation process := (process_records lib urls session_get).

Lemma fetch_world url w :
  (fetch url w).2
  = {| requests_made := S (requests_made w); events := events w ++ [Get url] |}.
Proof.
  unfold fetch_listing_html.
  destruct (session_get (requests_made w) url) as [code text|msg]; [|reflexivity].
  destruct (negb (code =? 200)%Z); [reflexivity|].
  destruct (has_challenge_marker (Py.lower text)); reflexivity.
Qed.

Lemma count_gets_app url evs evs' :
  count_gets url (evs ++ evs') = (count_gets url evs + count_gets url evs')%nat.
Proof. unfold count_gets. by rewrite List.filter_app, length_app. Qed.



Variable max_retries : Z.



End RequestsFacts.



(** ** The statuses and details of the result rows *)

Lemma availability_strings_get_values value st :
  availability_strings_get value AVAILABILITY_STRINGS = Some st ->
  st = "IN_STOCK" \/ st = "OUT_OF_STOCK".
Proof.
  unfold AVAILABILITY_STRINGS. cbn [availability_strings_get].
  repeat (destruct (String.eqb _ value); [intros [= <-]; auto|]).
  discriminate.
Qed.

Lemma standardise_values value st :
  standardise value = Some st -> st = "IN_STOCK" \/ st = "OUT_OF_STOCK".
Proof.
  destruct value as [[]|]; cbn [standardise]; try discriminate.
  destruct (availability_strings_get s AVAILABILITY_STRINGS) as [x|] eqn:E;
    [|discriminate].
  destruct (Py.truthy x); [|discriminate].
  intros [= <-]. eapply availability_strings_get_values, E.
Qed.

Lemma parse_availability_from_json_values data st :
  parse_availability_from_json data = Some st ->
  st = "IN_STOCK" \/ st = "OUT_OF_STOCK".
Proof.
  unfold parse_availability_from_json, AVAILABILITY_JSON_KEYS.
  cbn [first_standardised].
  destruct (standardise (dict_get "availability" data)) as [x|] eqn:E1.
  { intros [= <-]. eapply standardise_values, E1. }
  destruct (standardise (dict_get "availabilityType" data)) as [x|] eqn:E2.
  { intros [= <-]. eapply standardise_values, E2. }
  destruct (dict_get "offers" data) as [[]|]; try discriminate.
  apply standardise_values.
Qed.

Lemma availability_of_entries_values entries st :
  availability_of_entries entries = Some st ->
  st = "IN_STOCK" \/ st = "OUT_OF_STOCK".
Proof.
  induction entries as [|entry entries IH]; [discriminate|].
  destruct entry; cbn [availability_of_entries]; try exact IH.
  destruct (parse_availability_from_json fields) as [x|] eqn:E; [|exact IH].
  intros [= <-]. eapply parse_availability_from_json_values, E.
Qed.

Lemma availability_of_payload_values payload st :
  availability_of_payload payload = Some st ->
  st = "IN_STOCK" \/ st = "OUT_OF_STOCK".
Proof.
  destruct payload; cbn [availability_of_payload]; try discriminate.
  - apply availability_of_entries_values.
  - apply parse_availability_from_json_values.
Qed.

Lemma structured_availability_values lib scripts st :
  structured_availability lib scripts = Some st ->
  st = "IN_STOCK" \/ st = "OUT_OF_STOCK".
Proof.
  induction scripts as [|[text|] scripts IH]; cbn [structured_availability];
    [discriminate | | exact IH].
  destruct (json_loads lib text) as [payload|]; [|exact IH].
  destruct (availability_of_payload payload) as [x|] eqn:E; [|exact IH].
  intros [= <-]. eapply availability_of_payload_values, E.
Qed.

Lemma scan_tokens_values html st :
  scan_tokens AVAILABILITY_STRINGS html = Some st ->
  st = "IN_STOCK" \/ st = "OUT_OF_STOCK".
Proof.
  unfold AVAILABILITY_STRINGS. cbn [scan_tokens].
  repeat (destruct (Py.contains _ html); [intros [= <-]; auto|]).
  discriminate.
Qed.

(** The detector answers IN_STOCK, OUT_OF_STOCK or UNKNOWN. *)
Lemma detect_availability_values lib html :
  In (detect_availability lib html) ["IN_STOCK"; "OUT_OF_STOCK"; "UNKNOWN"].
Proof.
  unfold detect_availability.
  destruct (structured_availability lib (ld_json_scripts lib html)) as [x|] eqn:E.
  { apply structured_availability_values in E as [-> | ->]; in_list. }
  destruct (Py.contains "out of stock" _); [in_list|].
  destruct (_ || _); [in_list|].
  destruct (Py.contains AVAILABILITY_FIELD html); [|in_list].
  destruct (scan_tokens AVAILABILITY_STRINGS html) as [x|] eqn:E2; [|in_list].
  apply scan_tokens_values in E2 as [-> | ->]; in_list.
Qed.

Lemma settled_static_five st :
  settled_static st -> In (availability st) DETECTED_STATUSES.
Proof.
  unfold DETECTED_STATUSES.
  intros [[_ H] | [_ H]]; cbn [In] in H.
  - destruct H as [H | [H | [H | []]]]; rewrite <- H; in_list.
  - destruct H as [H | [H | []]]; rewrite <- H; in_list.
Qed.

Lemma settled_static_detail st :
  settled_static st ->
  (error_message st <> None
   <-> availability st = "BLOCKED" \/ availability st = "ERROR").
Proof.
  intros [[He H] | [[e He] H]]; cbn [In] in H.
  - split; [intros Hn; exfalso; apply Hn, He|].
    destruct H as [H | [H | [H | []]]]; rewrite <- H;
      intros [Hb | Hb]; discriminate Hb.
  - split; [intros _ | intros _; rewrite He; discriminate].
    destruct H as [H | [H | []]]; rewrite <- H; auto.
Qed.

Lemma settled_chromium_five st :
  settled_chromium st -> In (availability st) DETECTED_STATUSES.
Proof.
  unfold DETECTED_STATUSES.
  intros [[_ H] | [_ H]]; [rewrite H; in_list|].
  cbn [In] in H. destruct H as [H | [H | [H | []]]]; rewrite <- H; in_list.
Qed.

Lemma settled_chromium_detail st :
  settled_chromium st ->
  (error_message st <> None <-> availability st <> "IN_STOCK")
  /\ availability st <> "UNKNOWN".
Proof.
  intros [[He H] | [[e He] H]]; cbn [In] in H.
  - rewrite H, He. split; [split; intros Hn; exfalso; by apply Hn | discriminate].
  - rewrite He.
    destruct H as [H | [H | [H | []]]]; rewrite <- H;
      (split; [split; discriminate | discriminate]).
Qed.

Lemma request_loop_settled lib session_get url : forall remaining st w,
  remaining <> 0%nat \/ settled_static st ->
  settled_static (request_loop lib session_get remaining url st w).1.
Proof.
  induction remaining as [|k IH]; intros st w H.
  - destruct H as [H|H]; [congruence | exact H].
  - cbn [request_loop].
    destruct (fetch_listing_html session_get url w) as [[e|html] w1].
    + destruct e as [msg|msg|msg]; apply IH; right; right;
        cbn [error_message availability]; (split; [eauto | in_list]).
    + cbn [fst]. left. cbn [error_message availability].
      split; [reflexivity | apply detect_availability_values].
Qed.

Lemma check_record_status lib session_get max_retries record w :
  In (availability (check_record lib session_get max_retries record w).1)
    DETECTED_STATUSES
  /\ ((0 <= max_retries)%Z ->
      settled_static (check_record lib session_get max_retries record w).1).
Proof.
  unfold check_record. destruct (iterations max_retries) as [|k] eqn:Hk.
  - split; [cbn; auto|]. unfold iterations in Hk. lia.
  - assert (settled_static
              (request_loop lib session_get (S k) (listing_url record)
                 {| attempts := 0; availability := "BLOCKED"; error_message := None |}
                 w).1) as Hs by (apply request_loop_settled; left; discriminate).
    split; [apply settled_static_five, Hs | intros _; exact Hs].
Qed.

Lemma process_records_status lib urls session_get max_retries total todo :
  forall index w,
    Forall (fun row =>
              In (detected_status row) DETECTED_STATUSES
              /\ ((0 <= max_retries)%Z ->
                  (error row <> None
                   <-> detected_status row = "BLOCKED" \/ detected_status row = "ERROR")))
      (process_records lib urls session_get max_retries total index todo w).1.
Proof.
  induction todo as [|record todo IH]; intros index w; [constructor|].
  cbn [process_records].
  pose proof (check_record_status lib session_get max_retries record w) as [H5 Hs].
  destruct (check_record lib session_get max_retries record w) as [st w1].
  cbn [fst] in H5, Hs.
  specialize (IH (S index) (if (index <? total)%nat then emit (Sleep 1) w1 else w1)).
  destruct (process_records lib urls session_get max_retries total (S index) todo _)
    as [rows w3].
  cbn [fst] in IH |- *. constructor; [|exact IH].
  cbn [result_row detected_status error]. split; [exact H5|].
  intros Hmr. apply settled_static_detail, Hs, Hmr.
Qed.

Lemma evaluate_availability_shape page :
  (evaluate_availability page).1 = "IN_STOCK"
  \/ ((evaluate_availability page).1 = "OUT_OF_STOCK"
      /\ opt_truthy (evaluate_availability page).2 = true).
Proof.
  unfold evaluate_availability.
  destruct (2 <=? evaluate_failures page)%nat; [left; reflexivity|].
  destruct (opt_truthy (availability_script page)) eqn:Ht; [|left; reflexivity].
  destruct (_ || _); [right; split; [reflexivity | exact Ht]|].
  destruct (Py.contains "add to basket disabled" _);
    [right; split; [reflexivity | exact Ht] | left; reflexivity].
Qed.

Lemma select_dimensions_failed react groups todo : forall used b a e b',
  select_dimensions react groups todo used b = (Failed a e, b') ->
  (a = "OUT_OF_STOCK" \/ a = "ERROR") /\ is_Some e.
Proof.
  induction todo as [|[[group_idx dim_type] dim_value] todo IH];
    intros used b a e b' H; [discriminate H|].
  cbn [select_dimensions] in H. case_bool_decide.
  - eapply IH, H.
  - destruct (groups !! group_idx) as [group|]; [|discriminate H].
    destruct (select_option_from_group react group dim_value _) as [[|reason|exc] b1].
    + eapply IH, H.
    + injection H as <- <- <-. split; [|eauto].
      unfold classify_failure. destruct (indicates_disablement reason); auto.
    + discriminate H.
Qed.

Lemma attempt_finished navigate react record b a e b' n :
  attempt navigate react record b = (Finished a e, b') ->
  settled_chromium {| attempts := n; availability := a; error_message := e |}.
Proof.
  unfold attempt.
  destruct (navigate (visits b) (listing_url record)) as [exc|page]; [discriminate|].
  destruct (detect_challenge page); [discriminate|].
  destruct (select_dimensions react _ _ ∅ _) as [[|a0 e0|exc] b2] eqn:Hsel;
    [| |discriminate].
  - pose proof (evaluate_availability_shape (current b2)) as Hev.
    destruct (evaluate_availability (current b2)) as [a1 d1]. cbn [fst snd] in Hev.
    intros [= <- <- <-]. destruct Hev as [-> | [-> Hd]].
    + left. split; reflexivity.
    + right. cbn [error_message availability]. rewrite Hd. cbn.
      split; [|auto]. destruct d1; [eauto | discriminate Hd].
  - intros [= <- <- <-]. apply select_dimensions_failed in Hsel as [Ha He].
    right. cbn [error_message availability]. split; [exact He|].
    destruct Ha as [-> | ->]; in_list.
Qed.

Lemma chromium_loop_settled navigate react record : forall remaining st b,
  remaining <> 0%nat \/ settled_chromium st ->
  settled_chromium (chromium_loop navigate react remaining record st b).1.
Proof.
  induction remaining as [|k IH]; intros st b H.
  - destruct H as [H|H]; [congruence | exact H].
  - cbn [chromium_loop].
    destruct (attempt navigate react record b) as [[a e|exc] b1] eqn:Ha.
    + cbn [fst]. eapply attempt_finished, Ha.
    + destruct exc as [msg|msg|msg]; apply IH; right; right;
        cbn [error_message availability]; (split; [eauto | in_list]).
Qed.

Lemma check_record_chromium_status navigate react max_retries record b :
  In (availability (check_record_chromium navigate react max_retries record b).1)
    DETECTED_STATUSES
  /\ ((0 <= max_retries)%Z ->
      settled_chromium (check_record_chromium navigate react max_retries record b).1).
Proof.
  unfold check_record_chromium. destruct (iterations max_retries) as [|k] eqn:Hk.
  - split; [cbn; auto|]. unfold iterations in Hk. lia.
  - assert (settled_chromium
              (chromium_loop navigate react (S k) record
                 {| attempts := 0; availability := "BLOCKED"; error_message := None |}
                 b).1) as Hs by (apply chromium_loop_settled; left; discriminate).
    split; [apply settled_chromium_five, Hs | intros _; exact Hs].
Qed.

Lemma process_records_chromium_status urls navigate react max_retries total todo :
  forall index b,
    Forall (fun row =>
              In (detected_status row) DETECTED_STATUSES
              /\ ((0 <= max_retries)%Z ->
                  (error row <> None <-> detected_status row <> "IN_STOCK")
                  /\ detected_status row <> "UNKNOWN"))
      (process_records_chromium urls navigate react max_retries total index todo b).1.
Proof.
  induction todo as [|record todo IH]; intros index b; [constructor|].
  cbn [process_records_chromium].
  pose proof (check_record_chromium_status navigate react max_retries record b)
    as [H5 Hs].
  destruct (check_record_chromium navigate react max_retries record b) as [st b1].
  cbn [fst] in H5, Hs.
  specialize (IH (S index) (if (index <? total)%nat then log (Wait 1) b1 else b1)).
  destruct (process_records_chromium urls navigate react max_retries total (S index) todo _)
    as [rows b3].
  cbn [fst] in IH |- *. constructor; [|exact IH].
  cbn [result_row detected_status error]. split; [exact H5|].
  intros Hmr. apply settled_chromium_detail, Hs, Hmr.
Qed.

(** C9, as stated, fails: a document that says nothing about stock is
    reported UNKNOWN, which is no IN_STOCK or OUT_OF_STOCK determination,
    and the row carries no error detail. *)
Lemma unknown_row_has_no_detail :
  ~ (forall row,
       row ∈ (process_variants_requests silent_markup listing_urls silent_session
                [red_large] 2 fresh_world).1 ->
       (error row <> None
        <-> ~ (detected_status row = "IN_STOCK" \/ detected_status row = "OUT_OF_STOCK"))).
Proof.
  intros H.
  specialize (H (result_row listing_urls red_large true "UNKNOWN" None)).
  destruct H as [_ H].
  - vm_compute. constructor.
  - apply H; [|reflexivity]. cbn [result_row detected_status].
    intros [E | E]; discriminate E.
Qed.

(** An interactive run that reads "Out of stock" off the page reports
    OUT_OF_STOCK and carries the message as its detail. *)
Example out_of_stock_row_has_detail :
  let page :=
    {| body_text := Some "Non Slip Door Mat"; page_url := listing_a;
       sku_containers := []; msku_groups := []; legacy_selects := [];
       availability_messages := [Some " Out of stock "; None; None; None; None];
       atc_button := Some true; evaluate_failures := 0 |} in
  map (fun row => (detected_status row, error row))
    (process_variants_chromium listing_urls (fun _ _ => inr page) still_page
       [red_large] 2 fresh_browser).1
  = [("OUT_OF_STOCK", Some "Out of stock")].
Proof. vm_compute. reflexivity. Qed.

(** C9, amended: every result row of either pipeline reports one of the
    five statuses.  When [max_retries] is not negative, a row of the
    static pipeline carries an error detail exactly when it reports
    BLOCKED or ERROR (IN_STOCK, OUT_OF_STOCK and UNKNOWN rows carry none),
    and a row of the interactive pipeline carries one exactly when it
    does not report IN_STOCK, and never reports UNKNOWN. *)
Theorem result_rows_shape (lib : HtmlLibrary) (urls : UrlLibrary)
    (session_get : nat -> string -> get_outcome)
    (navigate : nat -> string -> exn + Page) (react : Page -> locator -> nat -> Page)
    (max_retries : Z) (records : list VariantRecord) (w : world) (b : browser) :
  (forall row,
     row ∈ (process_variants_requests lib urls session_get records max_retries w).1 ->
     In (detected_status row) DETECTED_STATUSES
     /\ ((0 <= max_retries)%Z ->
         (error row <> None
          <-> detected_status row = "BLOCKED" \/ detected_status row = "ERROR")))
  /\ (forall row,
        row ∈ (process_variants_chromium urls navigate react records max_retries b).1 ->
        In (detected_status row) DETECTED_STATUSES
        /\ ((0 <= max_retries)%Z ->
            (error row <> None <-> detected_status row <> "IN_STOCK")
            /\ detected_status row <> "UNKNOWN")).
Proof.
  split; intros row Hrow.
  - pose proof (process_records_status lib urls session_get max_retries
                  (length records) records 1 w) as Hall.
    rewrite Forall_forall in Hall. apply Hall, Hrow.
  - pose proof (process_records_chromium_status urls navigate react max_retries
                  (length records) records 1 b) as Hall.
    rewrite Forall_forall in Hall. apply Hall, Hrow.
Qed.

Lemma result_rows_shape_witness :
  (In "UNKNOWN" DETECTED_STATUSES
   /\ ((None : option string) <> None <-> "UNKNOWN" = "BLOCKED" \/ "UNKNOWN" = "ERROR"))
  /\ (In "ERROR" DETECTED_STATUSES
      /\ (Some "Variant value 'Red' not found" <> None <-> "ERROR" <> "IN_STOCK")).
Proof.
  pose proof (result_rows_shape silent_markup listing_urls silent_session
                (fun _ _ => inr size_type_page) still_page 2 [red_large]
                fresh_world fresh_browser) as [Hstatic Hchromium].
  split.
  - destruct (Hstatic (result_row listing_urls red_large true "UNKNOWN" None))
      as [H5 Hd].
    + vm_compute. constructor.
    + split; [exact H5 | apply Hd; lia].
  - destruct (Hchromium (result_row listing_urls red_large false "ERROR"
                           (Some "Variant value 'Red' not found")))
      as [H5 Hd].
    + vm_compute. constructor.
    + split; [exact H5 | apply Hd; lia].
Defined.

(** ** Interactive selection engine: a failed selection *)



#[local] Set Warnings "-clear-no-such-hyp".





(** * Further properties of the scraper *)

(** ** More facts about the string primitives *)

Lemma append_cons c a b : String c a +:+ b = String c (a +:+ b).
Proof. reflexivity. Qed.

Lemma append_nil b : "" +:+ b = b.
Proof. reflexivity. Qed.

Lemma prefix_refl s : String.prefix s s = true.
Proof.
  induction s as [|c s IH]; [reflexivity|].
  cbn [String.prefix]. destruct (ascii_dec c c); [exact IH | congruence].
Qed.

Lemma prefix_empty s : String.prefix "" s = true.
Proof. destruct s; reflexivity. Qed.

Lemma contains_refl s : Py.contains s s = true.
Proof. apply contains_of_prefix, prefix_refl. Qed.

Lemma contains_empty s : Py.contains "" s = true.
Proof. apply contains_of_prefix, prefix_empty. Qed.

Lemma prefix_app_l needle : forall a b,
  String.prefix needle a = true -> String.prefix needle (a +:+ b) = true.
Proof.
  induction needle as [|c needle IH]; intros a b H; [apply prefix_empty|].
  apply prefix_cons_inv in H as (a' & -> & H).
  rewrite append_cons. cbn [String.prefix].
  destruct (ascii_dec c c); [apply IH, H | congruence].
Qed.

(** What a text holds, every text that starts with it holds. *)
Lemma contains_app_l needle a b :
  Py.contains needle a = true -> Py.contains needle (a +:+ b) = true.
Proof.
  induction a as [|c a IH]; intros H.
  - cbn [Py.contains] in H. rewrite orb_false_r in H.
    apply contains_of_prefix. apply (prefix_app_l needle "" b H).
  - cbn [Py.contains] in H. apply orb_true_iff in H as [H|H].
    + apply contains_of_prefix, (prefix_app_l _ (String c a) b H).
    + rewrite append_cons. apply contains_tail, IH, H.
Qed.

(** What a text holds, every text that ends with it holds. *)
Lemma contains_app_r needle a b :
  Py.contains needle b = true -> Py.contains needle (a +:+ b) = true.
Proof.
  intros H. induction a as [|c a IH]; [exact H|].
  rewrite append_cons. apply contains_tail, IH.
Qed.

Lemma append_empty_r s : s +:+ "" = s.
Proof. induction s as [|c s IH]; [reflexivity|]. by rewrite append_cons, IH. Qed.

Lemma append_assoc a b c : (a +:+ b) +:+ c = a +:+ (b +:+ c).
Proof. induction a as [|x a IH]; [reflexivity|]. by rewrite !append_cons, IH. Qed.

Lemma lower_app a b : Py.lower (a +:+ b) = Py.lower a +:+ Py.lower b.
Proof.
  induction a as [|c a IH]; [reflexivity|].
  rewrite append_cons. cbn [Py.lower]. by rewrite IH, append_cons.
Qed.

Section Stripping.

Variable p : ascii -> bool.

Lemma lstrip_by_starts_clean s : starts_clean p (Py.lstrip_by p s).
Proof.
  induction s as [|c s IH]; [exact I|].
  cbn [Py.lstrip_by]. destruct (p c) eqn:E; [exact IH | exact E].
Qed.

Lemma lstrip_by_clean s : starts_clean p s -> Py.lstrip_by p s = s.
Proof. destruct s as [|c s]; [reflexivity|]. cbn. by intros ->. Qed.



(** The part that [rstrip_by] drops is a tail. *)
Lemma rstrip_by_tail s : exists tail, s = Py.rstrip_by p s +:+ tail.
Proof.
  induction s as [|c s [tail IH]]; [by exists ""|].
  cbn [Py.rstrip_by]. destruct (p c && Py.is_empty (Py.rstrip_by p s)).
  - by exists (String c s).
  - exists tail. rewrite append_cons. by rewrite <- IH.
Qed.

(** The part that [lstrip_by] keeps is a tail. *)
Lemma lstrip_by_head s : exists head, s = head +:+ Py.lstrip_by p s.
Proof.
  induction s as [|c s [head IH]]; [by exists ""|].
  cbn [Py.lstrip_by]. destruct (p c).
  - exists (String c head). rewrite append_cons. by rewrite <- IH.
  - by exists "".
Qed.

(** Stripping on the left stops at a character that [p] rejects. *)
Lemma lstrip_by_app_stop c t u :
  p c = false ->
  Py.lstrip_by p (t +:+ String c u) = Py.lstrip_by p t +:+ String c u.
Proof.
  intros E. induction t as [|a t IH].
  - rewrite append_nil. cbn [Py.lstrip_by]. by rewrite E.
  - rewrite append_cons. cbn [Py.lstrip_by].
    destruct (p a); [exact IH | by rewrite append_cons].
Qed.

Lemma rstrip_by_keep c u :
  p c = false -> Py.rstrip_by p (String c u) = String c (Py.rstrip_by p u).
Proof. intros E. cbn [Py.rstrip_by]. by rewrite E. Qed.

(** Stripping on the right stops at a character that [p] rejects. *)
Lemma rstrip_by_app_stop c t u :
  p c = false ->
  Py.rstrip_by p (t +:+ String c u) = t +:+ String c (Py.rstrip_by p u).
Proof.
  intros E. induction t as [|a t IH].
  - rewrite !append_nil. by apply rstrip_by_keep.
  - rewrite !append_cons. cbn [Py.rstrip_by]. rewrite IH.
    assert (Py.is_empty (t +:+ String c (Py.rstrip_by p u)) = false) as ->
      by (by destruct t).
    by rewrite andb_false_r.
Qed.

End Stripping.


Lemma strip_lstrip s : Py.strip (Py.lstrip_by Py.isspace s) = Py.strip s.
Proof.
  unfold Py.strip. rewrite (lstrip_by_clean Py.isspace (Py.lstrip_by _ _)); [done|].
  apply lstrip_by_starts_clean.
Qed.

(** What the stripped text holds, the text holds. *)
Lemma contains_strip needle s :
  Py.contains needle (Py.strip s) = true -> Py.contains needle s = true.
Proof.
  unfold Py.strip. intros H.
  destruct (lstrip_by_head Py.isspace s) as [head Hh].
  destruct (rstrip_by_tail Py.isspace (Py.lstrip_by Py.isspace s)) as [tail Ht].
  rewrite Hh, Ht. apply contains_app_r, contains_app_l, H.
Qed.

Lemma contains_lstrip needle s :
  Py.contains needle (Py.lstrip_by Py.isspace s) = true -> Py.contains needle s = true.
Proof.
  intros H. destruct (lstrip_by_head Py.isspace s) as [head Hh].
  rewrite Hh. apply contains_app_r, H.
Qed.

Lemma contains_char_app c a u :
  Py.contains (String c "") (a +:+ String c u) = true.
Proof.
  apply contains_app_r, contains_of_prefix. cbn [String.prefix].
  destruct (ascii_dec c c); [apply prefix_empty | congruence].
Qed.

(** The text before the first occurrence of a character that it does not
    hold itself. *)
Lemma before_first_char c a u :
  Py.contains (String c "") a = false ->
  Py.before_first (String c "") (a +:+ String c u) = a.
Proof.
  induction a as [|x a IH]; intros H.
  - rewrite append_nil. cbn [Py.before_first String.prefix].
    destruct (ascii_dec c c); [by rewrite prefix_empty | congruence].
  - cbn [Py.contains] in H. apply orb_false_iff in H as [Hp H].
    rewrite append_cons. cbn [Py.before_first].
    assert (String.prefix (String c "") (String x (a +:+ String c u)) = false) as ->.
    { cbn [String.prefix] in Hp |- *. destruct (ascii_dec c x); [|reflexivity].
      by rewrite prefix_empty in Hp. }
    by rewrite IH.
Qed.

(** ** Label normalizer *)

(** X1: two labels that are equal up to letter case and runs of
    whitespace match, whichever is the option and whichever the target;
    in particular every label matches itself. *)
Theorem option_matches_normalized_equal (option_text target : string) :
  normalize_label option_text = normalize_label target ->
  option_matches option_text target = true.
Proof.
  intros H. unfold option_matches, substring_tier.
  rewrite H, contains_refl. reflexivity.
Qed.

Lemma option_matches_normalized_equal_witness :
  option_matches "  60 X 110   CM" "60 x 110 cm" = true.
Proof.
  apply (option_matches_normalized_equal "  60 X 110   CM" "60 x 110 cm").
  vm_compute. reflexivity.
Defined.

(** X2: a target that is empty or all whitespace matches every option
    text: the substring tier finds the empty text everywhere. *)
Theorem option_matches_blank_target (option_text target : string) :
  normalize_label target = "" ->
  option_matches option_text target = true.
Proof.
  intros H. unfold option_matches, substring_tier.
  rewrite H, contains_empty. reflexivity.
Qed.

Lemma option_matches_blank_target_witness :
  option_matches "Black Grey - Greekey" "   " = true.
Proof.
  apply (option_matches_blank_target "Black Grey - Greekey" "   ").
  vm_compute. reflexivity.
Defined.

(** X3: [extract_base_size] drops everything from the first opening
    parenthesis on: a size followed by a parenthesised annotation has the
    base size of the size alone. *)
Theorem extract_base_size_drops_annotation (size_text annotation : string) :
  Py.contains "(" size_text = false ->
  extract_base_size (size_text +:+ "(" +:+ annotation) = extract_base_size size_text.
Proof.
  intros Hno. unfold extract_base_size.
  assert (Hp : Py.isspace "(" = false) by reflexivity.
  assert (Hs : Py.strip (size_text +:+ "(" +:+ annotation)
               = Py.lstrip_by Py.isspace size_text
                 +:+ String "(" (Py.rstrip_by Py.isspace annotation)).
  { unfold Py.strip. change ("(" +:+ annotation) with (String "(" annotation).
    rewrite (lstrip_by_app_stop _ _ _ _ Hp). apply rstrip_by_app_stop, Hp. }
  rewrite Hs, contains_char_app.
  assert (Hl : Py.contains "(" (Py.lstrip_by Py.isspace size_text) = false).
  { destruct (Py.contains "(" (Py.lstrip_by Py.isspace size_text)) eqn:E; [|done].
    apply contains_lstrip in E. congruence. }
  rewrite (before_first_char _ _ _ Hl), strip_lstrip.
  assert (Py.contains "(" (Py.strip size_text) = false) as ->; [|reflexivity].
  destruct (Py.contains "(" (Py.strip size_text)) eqn:E; [|done].
  apply contains_strip in E. congruence.
Qed.

Lemma extract_base_size_drops_annotation_witness :
  extract_base_size ("60 x 110 cm " +:+ "(" +:+ "1 ft 11 in x 3 ft 7 in)")
  = extract_base_size "60 x 110 cm ".
Proof.
  apply (extract_base_size_drops_annotation "60 x 110 cm " "1 ft 11 in x 3 ft 7 in)").
  vm_compute. reflexivity.
Defined.

(** ** Variant descriptor builder *)



Section LoaderMore.

Variable strip_query_fragment : string -> string.

Abbreviation build := (build_record strip_query_fragment).

Lemma build_record_fields idx row st :
  row_index (build idx row st).1 = idx
  /\ excel_row (build idx row st).1 = (idx + 2)%nat
  /\ source_url (build idx row st).1 = row_listing_url row
  /\ listing_url (build idx row st).1 = strip_query_fragment (row_listing_url row)
  /\ size (build idx row st).1
     = opt_or (clean_cell_value (row_dimensions row))
         (clean_cell_value (row_pack_type row))
  /\ dimensions (build idx row st).1 = clean_cell_value (row_dimensions row)
  /\ stock_name (build idx row st).1 = clean_cell_value (row_stock_name row)
  /\ sheet_stock_status (build idx row st).1
     = clean_cell_value (row_sheet_stock_status row).
Proof.
  rewrite <- resolve_size_is_or. unfold build_record.
  destruct (opt_truthy (clean_cell_value (row_variation row)));
    repeat split; reflexivity.
Qed.

(** The record of a row depends on the state through the history and
    the table only. *)
Lemma build_record_ext idx row st st' :
  history_records st = history_records st' ->
  last_variation_by_listing st = last_variation_by_listing st' ->
  build idx row st = build idx row st'.
Proof. intros Hh Ht. unfold build_record. by rewrite Hh, Ht. Qed.

Lemma loop_limit lim rows : forall idx st,
  (1 <= idx)%nat ->
  (length (records st) < Z.to_nat (Z.max 1 lim))%nat ->
  records (load_loop strip_query_fragment 1 (Some lim) idx rows st)
  = take (Z.to_nat (Z.max 1 lim))
      (records (load_loop strip_query_fragment 1 None idx rows st)).
Proof.
  induction rows as [|row rows IH]; intros idx st Hidx Hlen.
  - cbn [load_loop]. by rewrite take_ge by lia.
  - rewrite (loop_cons strip_query_fragment idx row rows st Hidx).
    cbn [load_loop].
    destruct (build idx row st) as [record table] eqn:Hb.
    assert ((Z.of_nat idx <? 1)%Z = false) as -> by lia.
    assert (Hadv : advance strip_query_fragment idx row st
                   = {| records := records st ++ [record];
                        history_records := history_records st ++ [record];
                        last_variation_by_listing := table |})
      by (unfold advance; by rewrite Hb).
    rewrite Hadv. cbn [records]. rewrite length_app. cbn [length].
    destruct (lim <=? Z.of_nat (length (records st) + 1))%Z eqn:Hstop.
    + destruct (loop_records strip_query_fragment rows (S idx)
                  {| records := records st ++ [record];
                     history_records := history_records st ++ [record];
                     last_variation_by_listing := table |})
        as (built & -> & _); [lia|].
      apply Z.leb_le in Hstop.
      cbn [records]. rewrite take_app_length'; [done|].
      rewrite length_app. cbn [length]. lia.
    + apply Z.leb_gt in Hstop.
      apply IH; [lia|]. cbn [records]. rewrite length_app. cbn [length]. lia.
Qed.

Lemma loop_start s rows : forall idx sts st1,
  (1 <= idx)%nat ->
  history_records sts = history_records st1 ->
  last_variation_by_listing sts = last_variation_by_listing st1 ->
  exists built,
    records (load_loop strip_query_fragment 1 None idx rows st1) = records st1 ++ built
    /\ records (load_loop strip_query_fragment s None idx rows sts)
       = records sts ++ drop (Z.to_nat (s - Z.of_nat idx)) built.
Proof.
  induction rows as [|row rows IH]; intros idx sts st1 Hidx Hh Ht.
  - exists []. cbn [load_loop]. by rewrite drop_nil, !app_nil_r.
  - rewrite (loop_cons strip_query_fragment idx row rows st1 Hidx).
    cbn [load_loop]. rewrite (build_record_ext idx row sts st1 Hh Ht).
    destruct (build idx row st1) as [record table] eqn:Hb.
    assert (Hadv : advance strip_query_fragment idx row st1
                   = {| records := records st1 ++ [record];
                        history_records := history_records st1 ++ [record];
                        last_variation_by_listing := table |})
      by (unfold advance; by rewrite Hb).
    rewrite Hadv, Hh.
    destruct (Z.of_nat idx <? s)%Z eqn:Hskip.
    + edestruct (IH (S idx)) as (built & H1 & Hs); [lia| | |].
      3:{ exists (record :: built). split.
          - rewrite H1. cbn [records]. by rewrite <- app_assoc.
          - rewrite Hs. cbn [records].
            replace (Z.to_nat (s - Z.of_nat idx))
              with (S (Z.to_nat (s - Z.of_nat (S idx)))) by lia.
            reflexivity. }
      all: reflexivity.
    + edestruct (IH (S idx)) as (built & H1 & Hs); [lia| | |].
      3:{ exists (record :: built). split.
          - rewrite H1. cbn [records]. by rewrite <- app_assoc.
          - rewrite Hs. cbn [records].
            replace (Z.to_nat (s - Z.of_nat idx)) with 0%nat by lia.
            replace (Z.to_nat (s - Z.of_nat (S idx))) with 0%nat by lia.
            cbn [drop]. by rewrite <- app_assoc. }
      all: reflexivity.
Qed.

End LoaderMore.

(** X5: with no limit and no rows skipped, the sheet loads as one record
    per row, in the order of the rows: the record of the row at position
    [i] has row index [i + 1] and Excel row [i + 3], keeps the row's URL
    as source URL and its normalisation as listing URL, and takes its
    size from the dimensions cell when that has text and from the
    pack/type cell otherwise. *)
Theorem load_one_record_per_row (strip_query_fragment : string -> string)
    (rows : list SheetRow) :
  length (load_variants_from_excel strip_query_fragment rows None (Some 1%Z))
  = length rows
  /\ forall i row,
       rows !! i = Some row ->
       exists record,
         load_variants_from_excel strip_query_fragment rows None (Some 1%Z) !! i
         = Some record
         /\ row_index record = S i
         /\ excel_row record = (i + 3)%nat
         /\ source_url record = row_listing_url row
         /\ listing_url record = strip_query_fragment (row_listing_url row)
         /\ size record
            = opt_or (clean_cell_value (row_dimensions row))
                (clean_cell_value (row_pack_type row))
         /\ dimensions record = clean_cell_value (row_dimensions row)
         /\ stock_name record = clean_cell_value (row_stock_name row).
Proof.
  split.
  - change (load_variants_from_excel strip_query_fragment rows None (Some 1%Z))
      with (records (load_loop strip_query_fragment 1 None 1 rows initial_state)).
    destruct (loop_records strip_query_fragment rows 1 initial_state)
      as (built & -> & Hl); [lia|]. exact Hl.
  - intros i row Hi.
    pose proof (take_drop_middle rows i row Hi) as Hsplit.
    pose proof (lookup_lt_Some _ _ _ Hi) as Hlt.
    pose proof (loaded_record strip_query_fragment (take i rows) row (drop (S i) rows))
      as Hrec.
    rewrite Hsplit, length_take, Nat.min_l in Hrec by lia.
    eexists. split; [exact Hrec|].
    destruct (build_record_fields strip_query_fragment (S i) row
                (load_loop strip_query_fragment 1 None 1 (take i rows) initial_state))
      as (H1 & H2 & H3 & H4 & H5 & H6 & H7 & _).
    rewrite H1, H2, H3, H4, H5, H6, H7.
    repeat split; lia.
Qed.

Lemma load_one_record_per_row_witness :
  exists record,
    load_variants_from_excel cut_query_fragment interleaved_rows None (Some 1%Z) !! 3
    = Some record
    /\ row_index record = 4%nat
    /\ excel_row record = 6%nat
    /\ listing_url record = listing_b.
Proof.
  destruct (proj2 (load_one_record_per_row cut_query_fragment interleaved_rows) 3
              (sheet_row (listing_b +:+ "?var=8") CellNaN (CellStr "60 x 110 cm")))
    as (record & Hr & Hi & He & _ & Hu & _).
  - reflexivity.
  - exists record. repeat split; assumption.
Defined.

(** X6: a limit keeps the first records of the unlimited load, and at
    least one: the loop tests the limit only after it has appended a
    record, so a limit of zero or less loads one record like a limit of
    one. *)
Theorem load_limit_is_prefix (strip_query_fragment : string -> string)
    (rows : list SheetRow) (limit : Z) :
  load_variants_from_excel strip_query_fragment rows (Some limit) (Some 1%Z)
  = take (Z.to_nat (Z.max 1 limit))
      (load_variants_from_excel strip_query_fragment rows None (Some 1%Z)).
Proof.
  change (load_variants_from_excel strip_query_fragment rows None (Some 1%Z))
    with (records (load_loop strip_query_fragment 1 None 1 rows initial_state)).
  change (load_variants_from_excel strip_query_fragment rows (Some limit) (Some 1%Z))
    with (records (load_loop strip_query_fragment 1 (Some limit) 1 rows initial_state)).
  apply loop_limit; [lia|]. cbn [initial_state records length]. lia.
Qed.

(** X7: a start row only hides the records before it: the records from
    it on are those of the full load, with the colours the hidden rows
    hand down; a start row below one counts as one. *)
Theorem load_start_row_is_suffix (strip_query_fragment : string -> string)
    (rows : list SheetRow) (start_row : Z) :
  load_variants_from_excel strip_query_fragment rows None (Some start_row)
  = drop (Z.to_nat (start_row - 1))
      (load_variants_from_excel strip_query_fragment rows None (Some 1%Z)).
Proof.
  change (load_variants_from_excel strip_query_fragment rows None (Some 1%Z))
    with (records (load_loop strip_query_fragment 1 None 1 rows initial_state)).
  unfold load_variants_from_excel.
  destruct (start_row <? 1)%Z eqn:Hs.
  - apply Z.ltb_lt in Hs.
    replace (Z.to_nat (start_row - 1)) with 0%nat by lia. reflexivity.
  - destruct (loop_start strip_query_fragment start_row rows 1 initial_state
                initial_state) as (built & H1 & H2); [lia|done|done|].
    rewrite H1, H2. reflexivity.
Qed.

Example start_row_keeps_inherited_colour :
  map variation
    (load_variants_from_excel cut_query_fragment green_cream_rows None (Some 3%Z))
  = [Some "Green Cream - Greekey"]
  /\ length (load_variants_from_excel cut_query_fragment green_cream_rows
               (Some 0%Z) (Some 1%Z)) = 1%nat.
Proof. split; vm_compute; reflexivity. Qed.

(** X8: the backward walk over the history never crosses a listing
    boundary: a colour it finds comes from a record of the same listing
    (its colour, or a colour read off its product name), and every record
    between that one and the current row is of the same listing too. *)
Theorem inherit_stays_in_block (base_url : string) (prevs : list VariantRecord)
    (c : string) :
  inherit_from_history base_url None prevs = Some c ->
  exists recent prev older,
    prevs = recent ++ prev :: older
    /\ Forall (fun r => listing_url r = base_url) recent
    /\ listing_url prev = base_url
    /\ (variation prev = Some c
        \/ exists name, stock_name prev = Some name /\ colour_from_name name = Some c).
Proof.
  assert (G : forall color,
             inherit_from_history base_url color prevs = Some c ->
             color = Some c
             \/ exists recent prev older,
                  prevs = recent ++ prev :: older
                  /\ Forall (fun r => listing_url r = base_url) recent
                  /\ listing_url prev = base_url
                  /\ (variation prev = Some c
                      \/ exists name, stock_name prev = Some name
                                      /\ colour_from_name name = Some c)).
  { induction prevs as [|prev rest IH]; intros color H; [by left|].
    cbn [inherit_from_history] in H.
    destruct (String.eqb_spec (listing_url prev) base_url) as [Hurl|_]; [|by left].
    assert (Hlift : forall color',
              (color' = Some c
               \/ exists recent prev' older,
                    rest = recent ++ prev' :: older
                    /\ Forall (fun r => listing_url r = base_url) recent
                    /\ listing_url prev' = base_url
                    /\ (variation prev' = Some c
                        \/ exists name, stock_name prev' = Some name
                                        /\ colour_from_name name = Some c)) ->
              color' = Some c
              \/ exists recent prev' older,
                   prev :: rest = recent ++ prev' :: older
                   /\ Forall (fun r => listing_url r = base_url) recent
                   /\ listing_url prev' = base_url
                   /\ (variation prev' = Some c
                       \/ exists name, stock_name prev' = Some name
                                       /\ colour_from_name name = Some c)).
    { intros color' [Hc | (recent & prev' & older & -> & Hall & Hu & Hv)]; [by left|].
      right. exists (prev :: recent), prev', older.
      split; [reflexivity|]. split; [by constructor|]. by split. }
    destruct (opt_truthy (variation prev) && _).
    - destruct (Py.truthy _).
      + right. exists [], prev, rest. repeat split; [constructor | exact Hurl | by left].
      + apply Hlift, IH, H.
    - destruct (opt_truthy (stock_name prev) && negb (opt_truthy color)) eqn:Hname.
      + apply andb_true_iff in Hname as [Hname _].
        destruct (stock_name prev) as [name|] eqn:Hsn; [|discriminate Hname].
        change (default "" (Some name)) with name in H.
        destruct (colour_from_name name) as [inherited|] eqn:Hcf.
        * assert (Hhere : Some inherited = Some c ->
                          color = Some c
                          \/ exists recent prev' older,
                               prev :: rest = recent ++ prev' :: older
                               /\ Forall (fun r => listing_url r = base_url) recent
                               /\ listing_url prev' = base_url
                               /\ (variation prev' = Some c
                                   \/ exists name, stock_name prev' = Some name
                                                   /\ colour_from_name name = Some c)).
          { intros [= ->]. right. exists [], prev, rest.
            repeat split; [constructor | exact Hurl |].
            right. exists name. by split. }
          destruct (opt_truthy (Some inherited)); [apply Hhere, H|].
          destruct (Hlift _ (IH _ H)) as [Hc | Hc]; [apply Hhere, Hc | by right].
        * destruct (opt_truthy color); [by left|]. apply Hlift, IH, H.
      + apply Hlift, IH, H. }
  intros H. destruct (G None H) as [Hc | Hc]; [discriminate Hc | exact Hc].
Qed.

Lemma inherit_stays_in_block_witness :
  exists recent prev older,
    [blue_small; grey_mat; red_large] = recent ++ prev :: older
    /\ Forall (fun r => listing_url r = listing_b) recent
    /\ listing_url prev = listing_b.
Proof.
  destruct (inherit_stays_in_block listing_b [blue_small; grey_mat; red_large]
              "Dark Grey")
    as (recent & prev & older & H1 & H2 & H3 & _).
  - vm_compute. reflexivity.
  - exists recent, prev, older. repeat split; assumption.
Defined.

(** ** Static availability detector *)

(** X9: [detect_availability] answers IN_STOCK, OUT_OF_STOCK or UNKNOWN,
    whatever the document and whatever the parsers make of it; BLOCKED
    and ERROR are never its answer. *)
Theorem detect_availability_range (lib : HtmlLibrary) (html : string) :
  detect_availability lib html = "IN_STOCK"
  \/ detect_availability lib html = "OUT_OF_STOCK"
  \/ detect_availability lib html = "UNKNOWN".
Proof.
  pose proof (detect_availability_values lib html) as H. cbn [In] in H.
  destruct H as [H | [H | [H | []]]]; auto.
Qed.

Lemma structured_availability_passed_over lib skipped : forall rest,
  Forall (passed_over lib) skipped ->
  structured_availability lib (skipped ++ rest) = structured_availability lib rest.
Proof.
  induction skipped as [|script skipped IH]; intros rest H; [reflexivity|].
  apply Forall_cons in H as [Hs H]. cbn [app structured_availability].
  destruct script as [text|]; [|apply IH, H].
  cbn [passed_over] in Hs. destruct (json_loads lib text) as [payload|]; [|apply IH, H].
  rewrite Hs. apply IH, H.
Qed.

(** X10: the first structured-data block with a known availability
    decides, whatever the visible text says: blocks before it that have
    no single string, are not JSON or carry no known availability are
    passed over, and the blocks after it are not looked at. *)
Theorem structured_block_decides (lib : HtmlLibrary) (html : string)
    (skipped : list (option string)) (text : string) (rest : list (option string))
    (payload : json) (status : string) :
  ld_json_scripts lib html = skipped ++ Some text :: rest ->
  Forall (passed_over lib) skipped ->
  json_loads lib text = Some payload ->
  availability_of_payload payload = Some status ->
  detect_availability lib html = status.
Proof.
  intros Hscripts Hskipped Hjson Hpayload. unfold detect_availability.
  rewrite Hscripts, (structured_availability_passed_over lib skipped _ Hskipped).
  cbn [structured_availability]. rewrite Hjson, Hpayload. reflexivity.
Qed.

Lemma structured_block_decides_witness :
  detect_availability out_of_stock_markup "<html></html>" = "OUT_OF_STOCK".
Proof.
  apply (structured_block_decides out_of_stock_markup "<html></html>"
           [Some "not json"; None] "offer" []
           (JDict [("@type", JStr "Product");
                   ("offers", JDict [("availability",
                                      JStr "http://schema.org/OutOfStock")])])).
  - reflexivity.
  - repeat constructor.
  - reflexivity.
  - reflexivity.
Defined.

(** ** Challenge and retry controller, static mode *)

Section RequestsMore.

Variable lib : HtmlLibrary.
Variable urls : UrlLibrary.
Variable session_get : nat -> string -> get_outcome.

Lemma fetch_ok url w text :
  session_get (requests_made w) url = Response 200 text ->
  has_challenge_marker (Py.lower text) = false ->
  fetch_listing_html session_get url w
  = (inr text, {| requests_made := S (requests_made w);
                  events := events w ++ [Get url] |}).
Proof.
  intros Hget Hmarker. unfold fetch_listing_html. rewrite Hget. cbn [Z.eqb Pos.eqb negb].
  by rewrite Hmarker.
Qed.

Lemma count_gets_snoc url evs e :
  count_gets url (evs ++ [e]) = (count_gets url evs + (if is_get url e then 1 else 0))%nat.
Proof.
  rewrite count_gets_app. unfold count_gets at 2. cbn [List.filter].
  by destruct (is_get url e).
Qed.

Lemma request_loop_budget url : forall remaining st w,
  let out := request_loop lib session_get remaining url st w in
  (attempts st <= attempts out.1 <= attempts st + remaining)%nat
  /\ (remaining <> 0%nat -> attempts st < attempts out.1)%nat
  /\ requests_made out.2 = (requests_made w + (attempts out.1 - attempts st))%nat
  /\ count_gets url (events out.2)
     = (count_gets url (events w) + (attempts out.1 - attempts st))%nat.
Proof.
  induction remaining as [|k IH]; intros st w; cbn zeta.
  - cbn [request_loop fst snd]. repeat split; lia.
  - cbn [request_loop]. pose proof (fetch_world session_get url w) as Hw.
    destruct (fetch_listing_html session_get url w) as [[e|html] w1];
      cbn [snd] in Hw; subst w1.
    + assert (Hstep : forall st',
                attempts st' = S (attempts st) ->
                forall n,
                  let out := request_loop lib session_get k url st'
                               (emit (Sleep n)
                                  {| requests_made := S (requests_made w);
                                     events := events w ++ [Get url] |}) in
                  (attempts st <= attempts out.1 <= attempts st + S k)%nat
                  /\ (S k <> 0%nat -> attempts st < attempts out.1)%nat
                  /\ requests_made out.2
                     = (requests_made w + (attempts out.1 - attempts st))%nat
                  /\ count_gets url (events out.2)
                     = (count_gets url (events w) + (attempts out.1 - attempts st))%nat).
      { intros st' Hst' n. cbn zeta.
        match goal with |- context [request_loop lib session_get k url st' ?w'] =>
          specialize (IH st' w'); cbn zeta in IH;
          destruct (request_loop lib session_get k url st' w') as [st2 w2] end.
        cbn [fst snd emit events requests_made] in IH |- *.
        rewrite !count_gets_snoc in IH. cbn [is_get] in IH.
        rewrite String.eqb_refl in IH. destruct IH as (Ha & _ & Hr & Hc).
        repeat split; lia. }
      destruct e as [msg|msg|msg]; apply Hstep; reflexivity.
    + cbn [fst snd attempts events requests_made]. rewrite count_gets_snoc.
      cbn [is_get]. rewrite String.eqb_refl. repeat split; lia.
Qed.

Variable max_retries : Z.



End RequestsMore.

(** X11: [fetch_listing_html] hands a document back exactly when the
    session answers with status 200 and the document, in lower case,
    holds none of the challenge markers; every other answer is raised as
    an exception. *)
Theorem fetch_returns_unchallenged_200 (session_get : nat -> string -> get_outcome)
    (url : string) (w : world) (text : string) :
  (fetch_listing_html session_get url w).1 = inr text
  <-> session_get (requests_made w) url = Response 200 text
      /\ has_challenge_marker (Py.lower text) = false.
Proof.
  split.
  - unfold fetch_listing_html.
    destruct (session_get (requests_made w) url) as [code body|msg]; [|discriminate].
    destruct (code =? 200)%Z eqn:Hcode; cbn [negb]; [|discriminate].
    apply Z.eqb_eq in Hcode as ->.
    destruct (has_challenge_marker (Py.lower body)) eqn:Hm; [discriminate|].
    cbn [fst]. intros [= ->]. by split.
  - intros [Hget Hm]. by rewrite (fetch_ok session_get url w text Hget Hm).
Qed.

(** X12: one descriptor costs at most [1 + max_retries] requests, and at
    least one when [max_retries] is not negative; every attempt is one
    request for the descriptor's listing URL, so the session sees as many
    requests as there were attempts. *)
Theorem check_record_budget (lib : HtmlLibrary)
    (session_get : nat -> string -> get_outcome) (max_retries : Z)
    (record : VariantRecord) (w : world) :
  (Z.of_nat (attempts (check_record lib session_get max_retries record w).1)
   <= Z.max 0 (1 + max_retries))%Z
  /\ ((0 <= max_retries)%Z ->
      (1 <= attempts (check_record lib session_get max_retries record w).1)%nat)
  /\ requests_made (check_record lib session_get max_retries record w).2
     = (requests_made w
        + attempts (check_record lib session_get max_retries record w).1)%nat
  /\ count_gets (listing_url record)
       (events (check_record lib session_get max_retries record w).2)
     = (count_gets (listing_url record) (events w)
        + attempts (check_record lib session_get max_retries record w).1)%nat.
Proof.
  unfold check_record.
  pose proof (request_loop_budget lib session_get (listing_url record)
                (iterations max_retries)
                {| attempts := 0; availability := "BLOCKED"; error_message := None |} w)
    as H.
  cbn zeta in H. destruct (request_loop _ _ _ _ _ _) as [st w'].
  cbn [fst snd attempts] in H |- *. destruct H as (Ha & Hpos & Hr & Hc).
  unfold iterations in *. repeat split; try lia.
  all: intros Hmr; apply Hpos; lia.
Qed.

Lemma check_record_budget_witness :
  (1 <= attempts (check_record bare_markup captcha_session 2 red_large fresh_world).1)%nat.
Proof.
  apply (check_record_budget bare_markup captcha_session 2 red_large fresh_world).
  lia.
Defined.





(** ** Result rows *)



(** ** Interactive selection engine *)

(** X16: [interpret_option_state] reports an option disabled exactly
    when its class holds the disabled marker, its [aria-disabled] is
    "true" or its label holds "out of stock", and the reason it gives
    counts as disablement in the classification of failures exactly when
    the option is disabled. *)
Theorem interpret_option_state_markers (option_text : string)
    (class_attr aria_disabled : option string) :
  (interpret_option_state option_text class_attr aria_disabled).1
  = (opt_truthy class_attr
     && Py.contains "listbox__option--disabled" (default "" class_attr))
    || bool_decide (aria_disabled = Some "true")
    || Py.contains "out of stock" (Py.lower option_text)
  /\ indicates_disablement (interpret_option_state option_text class_attr aria_disabled).2
     = (interpret_option_state option_text class_attr aria_disabled).1.
Proof.
  unfold interpret_option_state.
  destruct (opt_truthy class_attr && _), (bool_decide (aria_disabled = Some "true")),
    (Py.contains "out of stock" _); split; reflexivity.
Qed.



Lemma first_unused_none p used groups : forall idx,
  first_unused p used idx groups = None ->
  forall i g, groups !! i = Some g -> (idx + i) ∉ used -> p g = false.
Proof.
  induction groups as [|g0 groups IH]; intros idx H i g Hi Hu; [done|].
  cbn [first_unused] in H. destruct i as [|i].
  - injection Hi as ->. rewrite Nat.add_0_r in Hu.
    rewrite bool_decide_eq_false_2 in H by exact Hu.
    destruct (p g); [discriminate H | reflexivity].
  - cbn in Hi. replace (idx + S i)%nat with (S idx + i)%nat in Hu by lia.
    case_bool_decide; [by eapply IH|].
    destruct (p g0); [discriminate H | by eapply IH].
Qed.

Lemma first_unused_some p used groups : forall idx i,
  first_unused p used idx groups = Some i ->
  exists g, groups !! (i - idx)%nat = Some g /\ p g = true.
Proof.
  induction groups as [|g0 groups IH]; intros idx i H; [discriminate H|].
  cbn [first_unused] in H.
  assert (Hrec : first_unused p used (S idx) groups = Some i ->
                 exists g, (g0 :: groups) !! (i - idx)%nat = Some g /\ p g = true).
  { intros H'. pose proof (first_unused_spec _ _ _ _ _ H') as [_ Hr].
    destruct (IH _ _ H') as (g & Hg & Hp). exists g. split; [|exact Hp].
    replace (i - idx)%nat with (S (i - S idx)) by lia. exact Hg. }
  case_bool_decide; [by apply Hrec|].
  destruct (p g0) eqn:Hp; [|by apply Hrec].
  injection H as <-. exists g0. rewrite Nat.sub_diag. by split.
Qed.

(** X18: [find_group_for_dimension] never returns a used group: it
    answers [None] exactly when every group is used, and otherwise an
    unused group in range which either carries a keyword of the dimension
    or stands in because no unused group carries one. *)
Theorem find_group_contract (groups : list VariantGroup) (d : dimension)
    (used : gset nat) :
  match find_group_for_dimension groups d used with
  | None => forall i, (i < length groups)%nat -> i ∈ used
  | Some i =>
      (i ∉ used)
      /\ exists g, groups !! i = Some g
         /\ (label_has_keyword (GROUP_KEYWORDS d) g = true
             \/ forall j g', groups !! j = Some g' -> j ∉ used ->
                  label_has_keyword (GROUP_KEYWORDS d) g' = false)
  end.
Proof.
  unfold find_group_for_dimension.
  destruct (first_unused (label_has_keyword _) used 0 groups) as [i|] eqn:Hk.
  - pose proof (first_unused_spec _ _ _ _ _ Hk) as [Hu _].
    destruct (first_unused_some _ _ _ _ _ Hk) as (g & Hg & Hp).
    rewrite Nat.sub_0_r in Hg. split; [exact Hu|]. exists g. split; [exact Hg | by left].
  - destruct (first_unused (fun _ => true) used 0 groups) as [i|] eqn:Hf.
    + pose proof (first_unused_spec _ _ _ _ _ Hf) as [Hu _].
      destruct (first_unused_some _ _ _ _ _ Hf) as (g & Hg & _).
      rewrite Nat.sub_0_r in Hg. split; [exact Hu|]. exists g. split; [exact Hg|].
      right. intros j g' Hj Hju. by eapply (first_unused_none _ _ _ 0 Hk j g' Hj).
    + intros i Hi. destruct (decide (i ∈ used)) as [|Hn]; [done|].
      destruct (lookup_lt_is_Some_2 groups i Hi) as [g Hg].
      by pose proof (first_unused_none _ _ _ 0 Hf i g Hg Hn).
Qed.

Lemma find_group_contract_witness :
  1%nat ∉ ({[0%nat]} : gset nat).
Proof.
  pose proof (find_group_contract (collect_variant_groups size_type_page)
                dim_variation {[0%nat]}) as H.
  assert (E : find_group_for_dimension (collect_variant_groups size_type_page)
                dim_variation {[0%nat]} = Some 1%nat) by (vm_compute; reflexivity).
  rewrite E in H. exact (proj1 H).
Defined.

Lemma insert_by_index_perm a sorted : insert_by_index a sorted ≡ₚ a :: sorted.
Proof.
  induction sorted as [|b rest IH]; [reflexivity|].
  cbn [insert_by_index]. destruct (b.1.1 <=? a.1.1)%nat; [|reflexivity].
  rewrite IH. apply perm_swap.
Qed.

Lemma insert_by_index_sorted a sorted :
  StronglySorted (fun x y : assignment => (x.1.1 <= y.1.1)%nat) sorted ->
  StronglySorted (fun x y : assignment => (x.1.1 <= y.1.1)%nat)
    (insert_by_index a sorted).
Proof.
  induction 1 as [|b rest Hs IH Hb]; [repeat constructor|].
  cbn [insert_by_index]. destruct (b.1.1 <=? a.1.1)%nat eqn:E.
  - apply Nat.leb_le in E. constructor; [exact IH|].
    rewrite insert_by_index_perm. by constructor.
  - apply Nat.leb_gt in E. constructor; [by constructor|].
    constructor; [lia|]. eapply Forall_impl; [exact Hb|]. intros c Hc. cbn in Hc |- *. lia.
Qed.

Lemma sort_by_index_fold l : forall acc,
  StronglySorted (fun x y : assignment => (x.1.1 <= y.1.1)%nat) acc ->
  StronglySorted (fun x y : assignment => (x.1.1 <= y.1.1)%nat)
    (foldl (fun acc a => insert_by_index a acc) acc l)
  /\ foldl (fun acc a => insert_by_index a acc) acc l ≡ₚ acc ++ l.
Proof.
  induction l as [|a l IH]; intros acc Hs; cbn [foldl].
  - by rewrite app_nil_r.
  - destruct (IH (insert_by_index a acc) (insert_by_index_sorted a acc Hs)) as [H1 H2].
    split; [exact H1|]. rewrite H2, insert_by_index_perm.
    cbn [app]. apply Permutation_middle.
Qed.

(** X19: the sort of the assigned dimensions keeps them all and puts
    them in ascending order of group index, the order of the groups on
    the page. *)
Theorem sort_by_index_sorts (l : list assignment) :
  sort_by_index l ≡ₚ l
  /\ StronglySorted (fun x y : assignment => (x.1.1 <= y.1.1)%nat) (sort_by_index l).
Proof.
  destruct (sort_by_index_fold l []) as [H1 H2]; [constructor|].
  split; [exact H2 | exact H1].
Qed.

(** X20: [evaluate_availability] answers IN_STOCK or OUT_OF_STOCK only,
    and OUT_OF_STOCK always comes with the text that said so; a page
    with no availability message and no purchase button, and a page
    whose probe fails twice, are IN_STOCK without a detail. *)
Theorem evaluate_availability_verdicts (page : Page) :
  ((evaluate_availability page).1 = "IN_STOCK"
   \/ ((evaluate_availability page).1 = "OUT_OF_STOCK"
       /\ exists text, (evaluate_availability page).2 = Some text /\ text <> ""))
  /\ ((2 <= evaluate_failures page)%nat ->
      evaluate_availability page = ("IN_STOCK", None))
  /\ (availability_script page = None ->
      evaluate_availability page = ("IN_STOCK", None)).
Proof.
  split; [|split].
  - destruct (evaluate_availability_shape page) as [H | [H Ht]]; [by left|].
    right. split; [exact H|].
    destruct (evaluate_availability page).2 as [text|]; [|discriminate Ht].
    exists text. split; [reflexivity|]. intros ->. discriminate Ht.
  - intros H. unfold evaluate_availability.
    by rewrite (proj2 (Nat.leb_le _ _) H).
  - intros H. unfold evaluate_availability. rewrite H.
    by destruct (2 <=? evaluate_failures page)%nat.
Qed.

Lemma evaluate_availability_verdicts_witness :
  evaluate_availability
    {| body_text := None; page_url := listing_a; sku_containers := [];
       msku_groups := []; legacy_selects := [];
       availability_messages := [Some "Out of stock"]; atc_button := None;
       evaluate_failures := 2 |}
  = ("IN_STOCK", None).
Proof.
  apply (proj1 (proj2 (evaluate_availability_verdicts _))). cbn. lia.
Defined.
